(** * autosmp: the CPU hotplug controller of arch/arm/kernel/autosmp.c

    A shallow embedding of the controller (the second unit of
    src/drivers/leds/ledtrig-thermal.c) and the properties its
    specification states about it.

    Unsigned integers of the source are [Z] with the wrap-around written
    out where the source can wrap ([cycle++]).  The CPU online mask is a
    bitmap, read with [Z.testbit].  The global variables of the source
    are the fields of one record, threaded through every function. *)

From Stdlib Require Import ZArith List Bool Lia.
Import ListNotations.
Open Scope Z_scope.

(** ** Data *)

(** [struct asmp_param_struct]: every field but [scroff_single_core] is an
    [unsigned int]. *)
Record asmp_param_struct : Type := mk_param {
  delay : Z;
  scroff_single_core : bool;
  max_cpus : Z;
  min_cpus : Z;
  load_limit_up : Z;
  load_limit_down : Z;
  cycle_up : Z;
  cycle_down : Z
}.

(** [struct cpumask]: bit [cpu] is set when that CPU is online. *)
Definition cpumask : Type := Z.

(** A call made to the CPU hotplug facility. *)
Inductive hotplug_call : Type :=
| CpuUp (cpu : nat)
| CpuDown (cpu : nat).

(** The globals the controller reads and writes.  [enabled] is an [int]
    that only ever holds what [param_set_bool] stores, 0 or 1.
    [asmp_work] is the delayed work item: [Some d] when it is pending,
    queued with a delay of [d] milliseconds.  [hotplug_log] is a ghost
    field, most recent call first: no code reads it. *)
Record kernel : Type := mk_kernel {
  asmp_param : asmp_param_struct;
  cycle : Z;
  enabled : bool;
  rq_avg : Z;
  asmp_work : option Z;
  cpu_online_mask : cpumask;
  hotplug_log : list hotplug_call
}.

(** What the environment answers during one call into the controller:
    whether the hotplug facility carries out a request for a CPU, and the
    clock rate [cpufreq_get] reports for it. *)
Record hw : Type := mk_hw {
  hotplug_ok : nat -> bool;
  cpufreq_get : nat -> Z
}.

Definition set_param (p : asmp_param_struct) (k : kernel) : kernel :=
  mk_kernel p (cycle k) (enabled k) (rq_avg k) (asmp_work k)
            (cpu_online_mask k) (hotplug_log k).

Definition set_cycle (c : Z) (k : kernel) : kernel :=
  mk_kernel (asmp_param k) c (enabled k) (rq_avg k) (asmp_work k)
            (cpu_online_mask k) (hotplug_log k).

Definition set_enabled_flag (b : bool) (k : kernel) : kernel :=
  mk_kernel (asmp_param k) (cycle k) b (rq_avg k) (asmp_work k)
            (cpu_online_mask k) (hotplug_log k).

Definition set_rq_avg (rq : Z) (k : kernel) : kernel :=
  mk_kernel (asmp_param k) (cycle k) (enabled k) rq (asmp_work k)
            (cpu_online_mask k) (hotplug_log k).

Definition set_work (w : option Z) (k : kernel) : kernel :=
  mk_kernel (asmp_param k) (cycle k) (enabled k) (rq_avg k) w
            (cpu_online_mask k) (hotplug_log k).

Definition set_mask (m : cpumask) (k : kernel) : kernel :=
  mk_kernel (asmp_param k) (cycle k) (enabled k) (rq_avg k) (asmp_work k)
            m (hotplug_log k).

Definition log_call (c : hotplug_call) (k : kernel) : kernel :=
  mk_kernel (asmp_param k) (cycle k) (enabled k) (rq_avg k) (asmp_work k)
            (cpu_online_mask k) (c :: hotplug_log k).

(** [unsigned int] arithmetic wraps modulo 2^32. *)
Definition UINT_MOD : Z := 2 ^ 32.
Definition uint (z : Z) : Z := z mod UINT_MOD.

Definition EINVAL : Z := 22.
Definition ASMP_STARTDELAY : Z := 20000.

(** ** The CPU mask

    The mask operations are the kernel's (include/linux/cpumask.h and
    lib/find_next_bit.c), which are not under src/. *)

(** Modelled from the spec: [cpumask_test_cpu], whether a unit is online
    in a mask. *)
Definition cpumask_test_cpu (cpu : nat) (m : cpumask) : bool :=
  Z.testbit m (Z.of_nat cpu).

(** Modelled from the spec: [cpumask_set_cpu], the mask with one more unit
    online. *)
Definition cpumask_set_cpu (cpu : nat) (m : cpumask) : cpumask :=
  Z.setbit m (Z.of_nat cpu).

(** Modelled from the spec: [cpumask_clear_cpu], the mask with one unit
    offline. *)
Definition cpumask_clear_cpu (cpu : nat) (m : cpumask) : cpumask :=
  Z.clearbit m (Z.of_nat cpu).

(** Modelled from the spec: [cpu_online(cpu)], the test on the online
    mask. *)
Definition cpu_online (cpu : nat) (k : kernel) : bool :=
  cpumask_test_cpu cpu (cpu_online_mask k).

(** Modelled from the spec: [bitmap_weight(src, nbits)], the count of the
    units online among the first [nbits]. *)
Definition bitmap_weight (m : cpumask) (nbits : nat) : nat :=
  length (filter (fun cpu => cpumask_test_cpu cpu m) (seq 0 nbits)).

(** Modelled from the spec: [find_next_zero_bit(addr, size, offset)], the
    lowest offline unit at or after [offset], and [size] when there is none
    below [size].  [scan_zero] is its scan, bounded by the bits left. *)
Fixpoint scan_zero (m : cpumask) (fuel : nat) (i : nat) : nat :=
  match fuel with
  | O => i
  | S fuel' => if cpumask_test_cpu i m then scan_zero m fuel' (S i) else i
  end.

(** Modelled from the spec: see [scan_zero]. *)
Definition find_next_zero_bit (m : cpumask) (size offset : nat) : nat :=
  if (size <=? offset)%nat then size else scan_zero m (size - offset) offset.

(** The sysfs attributes of [store_one]. *)
Inductive asmp_attr : Type :=
| a_delay | a_scroff_single_core | a_max_cpus | a_min_cpus
| a_load_limit_up | a_load_limit_down | a_cycle_up | a_cycle_down.

Definition store_field (a : asmp_attr) (input : Z) (p : asmp_param_struct)
  : asmp_param_struct :=
  match a with
  | a_delay =>
      mk_param input (scroff_single_core p) (max_cpus p) (min_cpus p)
               (load_limit_up p) (load_limit_down p) (cycle_up p) (cycle_down p)
  | a_scroff_single_core =>
      mk_param (delay p) (negb (input =? 0)) (max_cpus p) (min_cpus p)
               (load_limit_up p) (load_limit_down p) (cycle_up p) (cycle_down p)
  | a_max_cpus =>
      mk_param (delay p) (scroff_single_core p) input (min_cpus p)
               (load_limit_up p) (load_limit_down p) (cycle_up p) (cycle_down p)
  | a_min_cpus =>
      mk_param (delay p) (scroff_single_core p) (max_cpus p) input
               (load_limit_up p) (load_limit_down p) (cycle_up p) (cycle_down p)
  | a_load_limit_up =>
      mk_param (delay p) (scroff_single_core p) (max_cpus p) (min_cpus p)
               input (load_limit_down p) (cycle_up p) (cycle_down p)
  | a_load_limit_down =>
      mk_param (delay p) (scroff_single_core p) (max_cpus p) (min_cpus p)
               (load_limit_up p) input (cycle_up p) (cycle_down p)
  | a_cycle_up =>
      mk_param (delay p) (scroff_single_core p) (max_cpus p) (min_cpus p)
               (load_limit_up p) (load_limit_down p) input (cycle_down p)
  | a_cycle_down =>
      mk_param (delay p) (scroff_single_core p) (max_cpus p) (min_cpus p)
               (load_limit_up p) (load_limit_down p) (cycle_up p) input
  end.

(** What can happen to the controller: the pending work item fires, the
    run-queue observer publishes a load, the system suspends or resumes,
    [enabled] or a tunable is written. *)
Inductive event : Type :=
| Tick (e : hw)
| Observe (rq : Z)
| Suspend (e : hw)
| Resume (e : hw)
| SetEnabled (e : hw) (val : option bool)
| Store (a : asmp_attr) (input : option Z) (count : Z).

(** ** Vocabulary of the statements *)

(** A hotplug call touches the mask and the log, nothing else. *)
Definition same_control (k k' : kernel) : Prop :=
  asmp_param k' = asmp_param k /\ cycle k' = cycle k
  /\ enabled k' = enabled k /\ rq_avg k' = rq_avg k
  /\ asmp_work k' = asmp_work k.

(** Queueing the work touches the work item only. *)
Definition same_control_but_work (k k' : kernel) : Prop :=
  asmp_param k' = asmp_param k /\ cycle k' = cycle k
  /\ enabled k' = enabled k /\ rq_avg k' = rq_avg k
  /\ cpu_online_mask k' = cpu_online_mask k
  /\ hotplug_log k' = hotplug_log k.

(** The log of [k'] is the log of [k] with calls satisfying [P] put in
    front. *)
Definition log_grows (P : hotplug_call -> Prop) (k k' : kernel) : Prop :=
  exists new, hotplug_log k' = new ++ hotplug_log k /\ Forall P new.

(** A call that does not take CPU 0 down. *)
Definition spares_cpu0 (c : hotplug_call) : Prop := c <> CpuDown 0.

(** Splits on every test of a goal, outermost first. *)
Ltac split_ifs :=
  repeat match goal with
         | |- context [if ?b then _ else _] => destruct b eqn:?
         end.

(** Sample data used by the examples below: the defaults of the source
    for four cores, and a few pools. *)
Definition default_param : asmp_param_struct :=
  mk_param 100 true 4 1 25 5 1 5.

Definition hysteresis_param : asmp_param_struct :=
  mk_param 100 true 4 1 25 5 3 5.

Definition no_floor_param : asmp_param_struct :=
  mk_param 100 true 4 0 25 5 1 1.

Definition inverted_param : asmp_param_struct :=
  mk_param 100 true 4 1 10 20 1 1.

Definition floor2_param : asmp_param_struct :=
  mk_param 100 true 4 2 25 5 1 1.

(** [ULONG_MAX] where [long] has 32 bits, as on ARM. *)
Definition ULONG_MAX_32 : Z := 4294967295.

(** masks: 1 = {0}, 3 = {0,1}, 5 = {0,2}, 15 = {0,1,2,3} *)
Definition boot (p : asmp_param_struct) (c rq : Z) (m : cpumask) : kernel :=
  mk_kernel p c true rq None m [].

Definition hw_ok : hw := mk_hw (fun _ => true) (fun _ => 1512000).
Definition hw_refuse : hw := mk_hw (fun _ => false) (fun _ => 1512000).
Definition hw_metric : hw :=
  mk_hw (fun _ => true)
        (fun cpu => match cpu with
                    | O => 100
                    | S O => 10
                    | _ => 50
                    end).

Definition sample_run : list event :=
  [Observe 30; Tick hw_ok; SetEnabled hw_ok (Some true); Observe 40;
   Tick hw_ok; Suspend hw_ok; Store a_min_cpus (Some 0) 2; Resume hw_refuse;
   Observe 0; Tick hw_ok; SetEnabled hw_ok (Some false)].

(** More sample data: tunables with other thresholds, and ticks with the
    loads they read. *)
Definition up4_param : asmp_param_struct :=
  mk_param 100 true 4 1 25 5 4 5.

Definition down2_param : asmp_param_struct :=
  mk_param 100 true 4 1 25 5 1 2.

Definition no_scroff_param : asmp_param_struct :=
  mk_param 100 false 4 1 25 5 1 5.

Definition busy_ticks : list (hw * Z) :=
  [(hw_ok, 25); (hw_ok, 60); (hw_ok, 30)].
Definition calm_ticks : list (hw * Z) := [(hw_metric, 3)].
Definition idle_ticks : list (hw * Z) := [(hw_ok, 10); (hw_ok, 12)].
Definition any_ticks : list (hw * Z) := [(hw_ok, 30); (hw_refuse, 0)].

Definition hw_other : hw :=
  mk_hw (fun _ => false)
        (fun cpu => match cpu with
                    | S (S O) => 50
                    | _ => 7777
                    end).

(** * The thermal LED trigger

    The first unit of the file, drivers/leds/ledtrig-thermal.c: a work
    item reads a temperature sensor and ramps the brightness of a LED
    towards a value that grows with the temperature.  [int] arithmetic is
    written in [Z]; the facts below give the ranges in which C's [int]
    does not overflow. *)

Module Thermal.

Definition HIGH_TEMP : Z := 62.
Definition LOW_TEMP : Z := 52.
Definition SENSOR_ID : Z := 7.

(** [enum led_brightness] of include/linux/leds.h. *)
Definition LED_OFF : Z := 0.
Definition LED_FULL : Z := 255.

Definition INT_MAX : Z := 2 ^ 31 - 1.

(** The conversion of an [unsigned long] to [int], as gcc does it. *)
Definition to_int (z : Z) : Z := (z + 2 ^ 31) mod 2 ^ 32 - 2 ^ 31.

(** A call into the LED core. *)
Inductive led_call : Type :=
| TriggerEvent (b : Z)
| SetBrightness (b : Z).

(** The globals of the trigger.  [active] is an [int] that holds 0 or 1;
    [check_temp_work] is [Some d] when the work item is pending, queued
    with a delay of [d] jiffies; [led_log] is a ghost field, most recent
    call first. *)
Record state : Type := mk_state {
  delay : Z;
  brightness : Z;
  active : bool;
  check_temp_work : option Z;
  led_log : list led_call
}.

(** What [tsens_get_temp] answers: its return value and the temperature
    it stores. *)
Record tsens : Type := mk_tsens {
  ret : Z;
  temp : Z
}.

Definition set_delay (d : Z) (s : state) : state :=
  mk_state d (brightness s) (active s) (check_temp_work s) (led_log s).

Definition set_brightness (b : Z) (s : state) : state :=
  mk_state (delay s) b (active s) (check_temp_work s) (led_log s).

Definition set_active (a : bool) (s : state) : state :=
  mk_state (delay s) (brightness s) a (check_temp_work s) (led_log s).

Definition set_work (w : option Z) (s : state) : state :=
  mk_state (delay s) (brightness s) (active s) w (led_log s).

Definition log_led (c : led_call) (s : state) : state :=
  mk_state (delay s) (brightness s) (active s) (check_temp_work s)
           (c :: led_log s).

(** The work queue, as for the hotplug controller: queueing a pending
    item changes nothing, cancelling leaves none pending. *)
Definition schedule_delayed_work (d : Z) (s : state) : state :=
  match check_temp_work s with
  | Some _ => s
  | None => set_work (Some d) s
  end.

Definition cancel_delayed_work (s : state) : state := set_work None s.

Definition led_trigger_event (b : Z) (s : state) : state :=
  log_led (TriggerEvent b) s.

Definition led_set_brightness (b : Z) (s : state) : state :=
  log_led (SetBrightness b) s.

(** [br > brightness ? (brightness += n) : (brightness -= n)] *)
Definition step_towards (br b n : Z) : Z :=
  if b <? br then b + n else b - n.

(** The chain of tests on [diff = abs(br - brightness)]. *)
Definition smooth (br b : Z) : Z :=
  let diff := Z.abs (br - b) in
  if 120 <? diff then br
  else if 40 <? diff then step_towards br b 10
  else if 20 <? diff then step_towards br b 5
  else if 10 <? diff then step_towards br b 2
  else step_towards br b 1.

Definition clamp (b : Z) : Z :=
  if b <? LED_OFF then LED_OFF
  else if LED_FULL <? b then LED_FULL
  else b.

(** A call that hands the LED core a brightness it accepts. *)
Definition led_ok (c : led_call) : Prop :=
  match c with
  | TriggerEvent b | SetBrightness b => LED_OFF <= b <= LED_FULL
  end.

(** The brightness is in range and the calls made to the LED core since
    [s0] are. *)
Definition in_range (s0 s : state) : Prop :=
  LED_OFF <= brightness s <= LED_FULL
  /\ exists new, led_log s = new ++ led_log s0 /\ Forall led_ok new.

(** What can happen to the trigger. *)
Inductive event : Type :=
| Activate
| Deactivate
| CheckTemp (r : tsens)
| EarlySuspend
| LateResume.

Section Model.

(** [HZ] and [ULONG_MAX] come from the kernel configuration and the
    architecture. *)
Variable HZ : Z.
Variable ULONG_MAX : Z.

Definition DELAY_OFF : Z := 5 * HZ.
Definition DELAY_ON : Z := 2 * HZ.

(** [unsigned long] arithmetic wraps. *)
Definition ulong (z : Z) : Z := z mod (ULONG_MAX + 1).

(** The value [br] that [check_temp] computes from the temperature. *)
Definition br_of_temp (t : Z) : Z :=
  if LOW_TEMP <? t
  then to_int (ulong (LED_FULL * (t - LOW_TEMP)) / (HIGH_TEMP - LOW_TEMP))
  else 0.

(** From the label [reschedule] on. *)
Definition reschedule (s : state) : state :=
  let d := if brightness s =? LED_OFF then DELAY_OFF else DELAY_ON in
  schedule_delayed_work d (set_delay d s).

Definition check_temp (r : tsens) (s : state) : state :=
  if negb (ret r =? 0) then reschedule s
  else
    let br := br_of_temp (temp r) in
    let b := clamp (smooth br (brightness s)) in
    reschedule (led_trigger_event b (set_brightness b s)).

Definition thermal_trig_activate (s : state) : state :=
  set_active true (schedule_delayed_work DELAY_OFF (set_delay DELAY_OFF s)).

Definition thermal_trig_deactivate (s : state) : state :=
  led_set_brightness LED_OFF (set_active false (cancel_delayed_work s)).

Definition thermal_trig_early_suspend (s : state) : state :=
  if negb (active s) then s
  else
    let s1 := cancel_delayed_work s in
    if negb (brightness s1 =? 0) then led_trigger_event LED_OFF s1 else s1.

Definition thermal_trig_late_resume (s : state) : state :=
  if negb (active s) then s
  else
    let d := if brightness s =? LED_OFF then DELAY_OFF else DELAY_ON in
    schedule_delayed_work d (set_delay d s).

(** [thermal_trig_init], as far as the trigger's own globals go. *)
Definition thermal_trig_init (s : state) : state :=
  set_active false (set_brightness 0 (set_delay DELAY_OFF s)).

(** The work queue runs [check_temp] when the work item is pending; it
    is no longer pending while the function runs. *)
Definition run_check_temp (r : tsens) (s : state) : state :=
  match check_temp_work s with
  | Some _ => check_temp r (set_work None s)
  | None => s
  end.

Definition step (s : state) (ev : event) : state :=
  match ev with
  | Activate => thermal_trig_activate s
  | Deactivate => thermal_trig_deactivate s
  | CheckTemp r => run_check_temp r s
  | EarlySuspend => thermal_trig_early_suspend s
  | LateResume => thermal_trig_late_resume s
  end.

Definition run (evs : list event) (s : state) : state :=
  fold_left step evs s.

(** [n] runs of [check_temp] with the same reading. *)
Fixpoint checks (n : nat) (r : tsens) (s : state) : state :=
  match n with
  | O => s
  | S n' => checks n' r (check_temp r s)
  end.

End Model.

(** Sample data: a trigger just initialised, readings of 57 and 40
    degrees and a failed reading. *)
Definition fresh : state := mk_state 0 0 false None [].
Definition warm : tsens := mk_tsens 0 57.
Definition cool : tsens := mk_tsens 0 40.
Definition failed : tsens := mk_tsens (-22) 0.

End Thermal.

(** * The hotplug controller *)

(** ** The controller *)

Section Autosmp.

(** [CONFIG_NR_CPUS], [nr_cpu_ids] and [ULONG_MAX] come from the kernel
    configuration and the architecture. *)
Variable CONFIG_NR_CPUS : nat.
Variable nr_cpu_ids : nat.
Variable ULONG_MAX : Z.

(** Modelled from the spec: [cpumask_next_zero(n, srcp)], the lowest
    offline unit after unit [n], looking at [nr_cpumask_bits] =
    [CONFIG_NR_CPUS] bits; [CONFIG_NR_CPUS], which is no unit, when there is
    none. *)
Definition cpumask_next_zero (n : nat) (m : cpumask) : nat :=
  find_next_zero_bit m CONFIG_NR_CPUS (S n).

(** Modelled from the spec: [for_each_online_cpu(cpu)] visits the online
    units below [nr_cpu_ids], in ascending order. *)
Definition online_cpus (m : cpumask) : list nat :=
  filter (fun cpu => cpumask_test_cpu cpu m) (seq 0 nr_cpu_ids).

(** Modelled from the spec: [num_online_cpus()], the count of online
    units: the number of bits set in the online mask. *)
Definition num_online_cpus (k : kernel) : Z :=
  Z.of_nat (bitmap_weight (cpu_online_mask k) CONFIG_NR_CPUS).

(** Modelled from the spec: the power-unit collaborator ([cpu_up] and
    [cpu_down] of kernel/cpu.c, not under src/).  It performs the action
    for the given unit and reports success (0) or failure; the set of units
    is fixed, so no unit at or beyond [nr_cpu_ids] is ever brought up.  It
    refuses nothing else by itself: unit 0 included, what is asked and
    feasible is done unless [hotplug_ok] says the request fails. *)
Definition cpu_up (e : hw) (cpu : nat) (k : kernel) : Z * kernel :=
  let k := log_call (CpuUp cpu) k in
  if hotplug_ok e cpu && (cpu <? nr_cpu_ids)%nat && negb (cpu_online cpu k)
  then (0, set_mask (cpumask_set_cpu cpu (cpu_online_mask k)) k)
  else (- EINVAL, k).

(** Modelled from the spec: [cpu_down], see [cpu_up]. *)
Definition cpu_down (e : hw) (cpu : nat) (k : kernel) : Z * kernel :=
  let k := log_call (CpuDown cpu) k in
  if hotplug_ok e cpu && cpu_online cpu k
  then (0, set_mask (cpumask_clear_cpu cpu (cpu_online_mask k)) k)
  else (- EINVAL, k).

(** Modelled from the spec: the delayed work queue (kernel/workqueue.c,
    not under src/), which schedules the tick and cancels a pending one.
    Queueing a work item that is already pending changes nothing. *)
Definition queue_delayed_work (d : Z) (k : kernel) : kernel :=
  match asmp_work k with
  | Some _ => k
  | None => set_work (Some d) k
  end.

(** Modelled from the spec: [cancel_delayed_work_sync], after which no
    tick is pending. *)
Definition cancel_delayed_work_sync (k : kernel) : kernel :=
  set_work None k.

(** [get_rq_avg]: read and clear. *)
Definition get_rq_avg (k : kernel) : Z * kernel :=
  let rq := rq_avg k in
  (rq, set_rq_avg 0 k).

(** The body of the loop of [get_slowest_cpu], on the pair
    [(slow_cpu, slow_rate)]. *)
Definition slowest_step (e : hw) (acc : nat * Z) (cpu : nat) : nat * Z :=
  if (0 <? cpu)%nat then
    let rate := cpufreq_get e cpu in
    if rate <? snd acc then (cpu, rate) else acc
  else acc.

Definition get_slowest_cpu (e : hw) (k : kernel) : nat :=
  fst (fold_left (slowest_step e) (online_cpus (cpu_online_mask k))
                 (1%nat, ULONG_MAX)).

(** The state of the search of [get_slowest_cpu] after the CPUs below [n]. *)
Definition slowest_upto (e : hw) (m : cpumask) (n : nat) : nat * Z :=
  fold_left (slowest_step e)
            (filter (fun cpu => cpumask_test_cpu cpu m) (seq 0 n))
            (1%nat, ULONG_MAX).

(** The unit the tick brings up, and the one it takes down: chosen by
    search only when [CONFIG_NR_CPUS > 2], CPU 1 otherwise. *)
Definition cpu_to_bring_up (k : kernel) : nat :=
  if (2 <? CONFIG_NR_CPUS)%nat
  then cpumask_next_zero 0 (cpu_online_mask k)
  else 1%nat.

Definition cpu_to_take_down (e : hw) (k : kernel) : nat :=
  if (2 <? CONFIG_NR_CPUS)%nat then get_slowest_cpu e k else 1%nat.

(** The two conditions of the tick, on the values it has read. *)
Definition up_cond (p : asmp_param_struct) (nr_cpu_online rq : Z) : bool :=
  (nr_cpu_online <? max_cpus p) && (load_limit_up p <=? rq).

Definition down_cond (p : asmp_param_struct) (nr_cpu_online rq : Z) : bool :=
  (min_cpus p <? nr_cpu_online) && (rq <=? load_limit_down p).

(** [asmp_work_fn]: one tick. *)
Definition asmp_work_fn (e : hw) (k0 : kernel) : kernel :=
  let k1 := set_cycle (uint (cycle k0 + 1)) k0 in
  let (rq, k2) := get_rq_avg k1 in
  let nr_cpu_online := num_online_cpus k2 in
  let p := asmp_param k2 in
  let k3 :=
    if up_cond p nr_cpu_online rq then
      if cycle_up p <=? cycle k2 then
        let cpu := cpu_to_bring_up k2 in
        set_cycle 0 (snd (cpu_up e cpu k2))
      else k2
    else if down_cond p nr_cpu_online rq then
      if cycle_down p <=? cycle k2 then
        let cpu := cpu_to_take_down e k2 in
        set_cycle 0 (snd (cpu_down e cpu k2))
      else k2
    else k2 in
  queue_delayed_work (delay (asmp_param k3)) k3.

(** The CPUs the loops [for (cpu = 1; cpu < nr_cpu_ids; cpu++)] visit; the
    loop is compiled in only when [CONFIG_NR_CPUS > 2], and the body runs
    once, for CPU 1, otherwise. *)
Definition hotplug_cpus : list nat :=
  if (2 <? CONFIG_NR_CPUS)%nat then seq 1 (nr_cpu_ids - 1) else [1%nat].

Definition unplug (e : hw) (k : kernel) (cpu : nat) : kernel :=
  if cpu_online cpu k then snd (cpu_down e cpu k) else k.

Definition plug (e : hw) (k : kernel) (cpu : nat) : kernel :=
  if negb (cpu_online cpu k) then snd (cpu_up e cpu k) else k.

Definition asmp_early_suspend (e : hw) (k : kernel) : kernel :=
  let k1 :=
    if scroff_single_core (asmp_param k)
    then fold_left (unplug e) hotplug_cpus k
    else k in
  if enabled k1 then cancel_delayed_work_sync k1 else k1.

Definition asmp_late_resume (e : hw) (k : kernel) : kernel :=
  let k1 :=
    if scroff_single_core (asmp_param k)
    then fold_left (plug e) hotplug_cpus k
    else k in
  if enabled k1 then queue_delayed_work (delay (asmp_param k1)) k1 else k1.

(** Modelled from the spec: [param_set_bool] (kernel/params.c, not under
    src/).  [val] is the textual value already parsed: [Some b] for a
    boolean, [None] for malformed input, which is rejected without side
    effects. *)
Definition param_set_bool (val : option bool) (k : kernel) : Z * kernel :=
  match val with
  | Some b => (0, set_enabled_flag b k)
  | None => (- EINVAL, k)
  end.

(** [set_enabled]: the setter of the module parameter [enabled]. *)
Definition set_enabled (e : hw) (val : option bool) (k : kernel)
  : Z * kernel :=
  let (ret, k1) := param_set_bool val k in
  if enabled k1 then
    (ret, queue_delayed_work (delay (asmp_param k1)) k1)
  else
    let k2 := cancel_delayed_work_sync k1 in
    (ret, fold_left (plug e) hotplug_cpus k2).

(** [asmp_init], as far as the controller's own globals go: the counter
    starts at 0 and the first tick is queued after [ASMP_STARTDELAY]. *)
Definition asmp_init (k : kernel) : kernel :=
  let k1 := set_cycle 0 k in
  if enabled k1 then queue_delayed_work ASMP_STARTDELAY k1 else k1.

Definition enable (e : hw) (k : kernel) : kernel :=
  snd (set_enabled e (Some true) k).

Definition disable (e : hw) (k : kernel) : kernel :=
  snd (set_enabled e (Some false) k).

(** [store_one]: [input] is what [sscanf(buf, "%u", &input)] read, [None]
    when it read nothing; [count] is returned on success. *)
Definition store_one (a : asmp_attr) (input : option Z) (count : Z)
    (k : kernel) : Z * kernel :=
  match input with
  | None => (- EINVAL, k)
  | Some v => (count, set_param (store_field a (uint v) (asmp_param k)) k)
  end.

(** ** Runs of the controller *)

(** The work queue runs [asmp_work_fn] when the work item is pending; it is
    no longer pending while the function runs. *)
Definition run_asmp_work (e : hw) (k : kernel) : kernel :=
  match asmp_work k with
  | Some _ => asmp_work_fn e (set_work None k)
  | None => k
  end.

Definition step (k : kernel) (ev : event) : kernel :=
  match ev with
  | Tick e => run_asmp_work e k
  | Observe rq => set_rq_avg (uint rq) k
  | Suspend e => asmp_early_suspend e k
  | Resume e => asmp_late_resume e k
  | SetEnabled e val => snd (set_enabled e val k)
  | Store a input count => snd (store_one a input count k)
  end.

Definition run (evs : list event) (k : kernel) : kernel :=
  fold_left step evs k.

(** A tick that reads the load [rq]: the observer has left [rq] in
    [rq_avg], the work item is taken off the queue and its function runs. *)
Definition tick (e : hw) (rq : Z) (k : kernel) : kernel :=
  asmp_work_fn e (set_work None (set_rq_avg rq k)).


(** ** The rest of the controller's file *)

(** [show_one]: the number [sprintf(buf, "%u\n", asmp_param.object)]
    prints; a [bool] prints as 0 or 1. *)
Definition show_field (a : asmp_attr) (p : asmp_param_struct) : Z :=
  match a with
  | a_delay => delay p
  | a_scroff_single_core => if scroff_single_core p then 1 else 0
  | a_max_cpus => max_cpus p
  | a_min_cpus => min_cpus p
  | a_load_limit_up => load_limit_up p
  | a_load_limit_down => load_limit_down p
  | a_cycle_up => cycle_up p
  | a_cycle_down => cycle_down p
  end.

Definition show_one (a : asmp_attr) (k : kernel) : Z :=
  show_field a (asmp_param k).

(** Ticks one after the other, each with what the environment answers
    during it and the load it reads. *)
Definition run_ticks (ts : list (hw * Z)) (k : kernel) : kernel :=
  fold_left (fun k t => tick (fst t) (snd t) k) ts k.

(** The fields of [rq_info] that [rq_work_fn] touches. *)
Record rq_timer : Type := mk_rq_timer {
  def_start_time : Z;
  def_interval : Z;
  def_timer_jiffies : Z
}.

(** [do_div(n, base)] divides [n], read as a [uint64_t], in place. *)
Definition do_div (n base : Z) : Z := (n mod 2 ^ 64) / base.

(** [rq_work_fn]: [now] is [ktime_to_ns(ktime_get())], [msecs_to_jiffies]
    the kernel's conversion. *)
Definition rq_work_fn (msecs_to_jiffies : Z -> Z) (now : Z) (r : rq_timer)
  : rq_timer :=
  let diff := now - def_start_time r in
  let diff := do_div diff (1000 * 1000) in
  let interval := uint diff in
  mk_rq_timer now interval (msecs_to_jiffies interval).

(** ** Facts about the CPU mask *)

Lemma test_set_cpu (c cpu : nat) (m : cpumask) :
  cpumask_test_cpu c (cpumask_set_cpu cpu m)
  = cpumask_test_cpu c m || Nat.eqb c cpu.
Proof.
  unfold cpumask_test_cpu, cpumask_set_cpu.
  rewrite Z.setbit_eqb by lia. rewrite orb_comm. f_equal.
  destruct (Nat.eqb_spec c cpu), (Z.eqb_spec (Z.of_nat cpu) (Z.of_nat c));
    try reflexivity; lia.
Qed.

Lemma test_clear_cpu (c cpu : nat) (m : cpumask) :
  cpumask_test_cpu c (cpumask_clear_cpu cpu m)
  = cpumask_test_cpu c m && negb (Nat.eqb c cpu).
Proof.
  unfold cpumask_test_cpu, cpumask_clear_cpu.
  rewrite Z.clearbit_eqb. do 2 f_equal.
  destruct (Nat.eqb_spec c cpu), (Z.eqb_spec (Z.of_nat cpu) (Z.of_nat c));
    try reflexivity; lia.
Qed.

(** [scan_zero] stops at the first clear bit, or when the fuel is spent. *)
Lemma scan_zero_spec (m : cpumask) (fuel i : nat) :
  let r := scan_zero m fuel i in
  (i <= r <= i + fuel)%nat
  /\ (forall c, (i <= c < r)%nat -> cpumask_test_cpu c m = true)
  /\ ((r < i + fuel)%nat -> cpumask_test_cpu r m = false).
Proof.
  cbv zeta. revert i. induction fuel as [|fuel IH]; intros i; simpl.
  - split; [lia|]. split; intros; lia.
  - destruct (cpumask_test_cpu i m) eqn:Hi.
    + destruct (IH (S i)) as (Hr & Hset & Hclr).
      split; [lia|]. split.
      * intros c Hc. destruct (Nat.eq_dec c i) as [->|Hne]; [exact Hi|].
        apply Hset. lia.
      * intros Hlt. apply Hclr. lia.
    + split; [lia|]. split.
      * intros c Hc. lia.
      * intros _. exact Hi.
Qed.

Lemma find_next_zero_bit_spec (m : cpumask) (size offset : nat) :
  (offset <= size)%nat ->
  let r := find_next_zero_bit m size offset in
  (offset <= r <= size)%nat
  /\ (forall c, (offset <= c < r)%nat -> cpumask_test_cpu c m = true)
  /\ ((r < size)%nat -> cpumask_test_cpu r m = false).
Proof.
  intros Hle. cbv zeta. unfold find_next_zero_bit.
  destruct (Nat.leb_spec size offset) as [Hge|Hlt].
  - split; [lia|]. split; intros; lia.
  - destruct (scan_zero_spec m (size - offset) offset) as (Hr & Hset & Hclr).
    split; [lia|]. split.
    + exact Hset.
    + intros Hlt'. apply Hclr. lia.
Qed.

Lemma bitmap_weight_S (m : cpumask) (n : nat) :
  bitmap_weight m (S n)
  = (bitmap_weight m n + if cpumask_test_cpu n m then 1 else 0)%nat.
Proof.
  unfold bitmap_weight. rewrite seq_S, filter_app, length_app. simpl.
  destruct (cpumask_test_cpu n m); reflexivity.
Qed.

Lemma bitmap_weight_pos (m : cpumask) (n : nat) :
  (0 < n)%nat -> cpumask_test_cpu 0 m = true ->
  (1 <= bitmap_weight m n)%nat.
Proof.
  intros Hn H0. destruct n as [|n]; [lia|].
  unfold bitmap_weight. simpl. rewrite H0. simpl. lia.
Qed.

Lemma bitmap_weight_set_cpu (m : cpumask) (cpu n : nat) :
  cpumask_test_cpu cpu m = false ->
  bitmap_weight (cpumask_set_cpu cpu m) n
  = (bitmap_weight m n + if (cpu <? n)%nat then 1 else 0)%nat.
Proof.
  intros Hoff. induction n as [|n IH]; [reflexivity|].
  rewrite !bitmap_weight_S, IH, test_set_cpu.
  destruct (Nat.eqb_spec n cpu) as [->|Hne].
  - rewrite Hoff. simpl.
    destruct (Nat.ltb_spec cpu cpu); [lia|].
    destruct (Nat.ltb_spec cpu (S cpu)); lia.
  - rewrite orb_false_r.
    destruct (Nat.ltb_spec cpu n), (Nat.ltb_spec cpu (S n)); lia.
Qed.

Lemma num_online_cpus_weight (k : kernel) :
  num_online_cpus k
  = Z.of_nat (bitmap_weight (cpu_online_mask k) CONFIG_NR_CPUS).
Proof. reflexivity. Qed.

(** ** Facts about the hotplug calls *)

Lemma cpu_up_eq (e : hw) (cpu : nat) (k : kernel) :
  snd (cpu_up e cpu k)
  = if hotplug_ok e cpu && (cpu <? nr_cpu_ids)%nat && negb (cpu_online cpu k)
    then set_mask (cpumask_set_cpu cpu (cpu_online_mask k))
                  (log_call (CpuUp cpu) k)
    else log_call (CpuUp cpu) k.
Proof.
  unfold cpu_up. cbv zeta.
  change (cpu_online cpu (log_call (CpuUp cpu) k)) with (cpu_online cpu k).
  destruct (hotplug_ok e cpu && (cpu <? nr_cpu_ids)%nat
            && negb (cpu_online cpu k)); reflexivity.
Qed.

Lemma cpu_down_eq (e : hw) (cpu : nat) (k : kernel) :
  snd (cpu_down e cpu k)
  = if hotplug_ok e cpu && cpu_online cpu k
    then set_mask (cpumask_clear_cpu cpu (cpu_online_mask k))
                  (log_call (CpuDown cpu) k)
    else log_call (CpuDown cpu) k.
Proof.
  unfold cpu_down. cbv zeta.
  change (cpu_online cpu (log_call (CpuDown cpu) k)) with (cpu_online cpu k).
  destruct (hotplug_ok e cpu && cpu_online cpu k); reflexivity.
Qed.

Lemma cpu_up_online (e : hw) (cpu : nat) (k : kernel) (c : nat) :
  cpu_online c (snd (cpu_up e cpu k))
  = cpu_online c k
    || (Nat.eqb c cpu && hotplug_ok e cpu && (cpu <? nr_cpu_ids)%nat).
Proof.
  rewrite cpu_up_eq.
  destruct (hotplug_ok e cpu), (cpu <? nr_cpu_ids)%nat,
    (cpu_online cpu k) eqn:Hon; cbn [andb negb];
    rewrite ?andb_false_r, ?orb_false_r, ?andb_true_r; try reflexivity.
  - destruct (Nat.eqb_spec c cpu) as [->|]; [now rewrite Hon|].
    now rewrite orb_false_r.
  - unfold cpu_online at 1. unfold set_mask. cbn [cpu_online_mask].
    unfold log_call. cbn [cpu_online_mask]. apply test_set_cpu.
Qed.

Lemma cpu_down_online (e : hw) (cpu : nat) (k : kernel) (c : nat) :
  cpu_online c (snd (cpu_down e cpu k))
  = cpu_online c k && negb (Nat.eqb c cpu && hotplug_ok e cpu).
Proof.
  rewrite cpu_down_eq.
  destruct (hotplug_ok e cpu), (cpu_online cpu k) eqn:Hon; cbn [andb negb];
    rewrite ?andb_false_r, ?andb_true_r; try reflexivity.
  - unfold cpu_online at 1. unfold set_mask. cbn [cpu_online_mask].
    unfold log_call. cbn [cpu_online_mask]. apply test_clear_cpu.
  - destruct (Nat.eqb_spec c cpu) as [->|]; [now rewrite Hon|].
    now rewrite andb_true_r.
Qed.

Lemma same_control_refl (k : kernel) : same_control k k.
Proof. repeat split. Qed.

Lemma same_control_trans (k1 k2 k3 : kernel) :
  same_control k1 k2 -> same_control k2 k3 -> same_control k1 k3.
Proof.
  unfold same_control. intros (a1 & b1 & c1 & d1 & e1) (a2 & b2 & c2 & d2 & e2).
  repeat split; congruence.
Qed.

Lemma cpu_up_control (e : hw) (cpu : nat) (k : kernel) :
  same_control k (snd (cpu_up e cpu k)).
Proof. rewrite cpu_up_eq. split_ifs; repeat split. Qed.

Lemma cpu_down_control (e : hw) (cpu : nat) (k : kernel) :
  same_control k (snd (cpu_down e cpu k)).
Proof. rewrite cpu_down_eq. split_ifs; repeat split. Qed.

Lemma cpu_up_log (e : hw) (cpu : nat) (k : kernel) :
  hotplug_log (snd (cpu_up e cpu k)) = CpuUp cpu :: hotplug_log k.
Proof. rewrite cpu_up_eq. split_ifs; reflexivity. Qed.

Lemma cpu_down_log (e : hw) (cpu : nat) (k : kernel) :
  hotplug_log (snd (cpu_down e cpu k)) = CpuDown cpu :: hotplug_log k.
Proof. rewrite cpu_down_eq. split_ifs; reflexivity. Qed.

(** A refused request leaves the mask as it was. *)
Lemma cpu_up_refused (e : hw) (cpu : nat) (k : kernel) :
  hotplug_ok e cpu = false ->
  cpu_online_mask (snd (cpu_up e cpu k)) = cpu_online_mask k.
Proof. intros H. rewrite cpu_up_eq, H. reflexivity. Qed.

Lemma cpu_down_refused (e : hw) (cpu : nat) (k : kernel) :
  hotplug_ok e cpu = false ->
  cpu_online_mask (snd (cpu_down e cpu k)) = cpu_online_mask k.
Proof. intros H. rewrite cpu_down_eq, H. reflexivity. Qed.

Lemma log_grows_refl (P : hotplug_call -> Prop) (k : kernel) :
  log_grows P k k.
Proof. exists []. split; [reflexivity|constructor]. Qed.

Lemma log_grows_same (P : hotplug_call -> Prop) (k k' : kernel) :
  hotplug_log k' = hotplug_log k -> log_grows P k k'.
Proof. intros H. exists []. split; [exact H|constructor]. Qed.

Lemma log_grows_one (P : hotplug_call -> Prop) (k k' : kernel)
    (c : hotplug_call) :
  hotplug_log k' = c :: hotplug_log k -> P c -> log_grows P k k'.
Proof.
  intros H Hc. exists [c]. split; [exact H|].
  constructor; [exact Hc|constructor].
Qed.

Lemma log_grows_trans (P : hotplug_call -> Prop) (k1 k2 k3 : kernel) :
  log_grows P k1 k2 -> log_grows P k2 k3 -> log_grows P k1 k3.
Proof.
  intros (n1 & H1 & F1) (n2 & H2 & F2). exists (n2 ++ n1). split.
  - rewrite H2, H1. apply app_assoc.
  - apply Forall_app. split; assumption.
Qed.

(** ** The loops over the secondary CPUs *)

Lemma plug_online (e : hw) (k : kernel) (cpu c : nat) :
  cpu_online c (plug e k cpu)
  = cpu_online c k
    || (Nat.eqb c cpu && hotplug_ok e cpu && (cpu <? nr_cpu_ids)%nat).
Proof.
  unfold plug. destruct (cpu_online cpu k) eqn:Hon; cbn [negb].
  - destruct (Nat.eqb_spec c cpu) as [->|]; cbn [andb].
    + rewrite Hon. reflexivity.
    + now rewrite orb_false_r.
  - apply cpu_up_online.
Qed.

Lemma unplug_online (e : hw) (k : kernel) (cpu c : nat) :
  cpu_online c (unplug e k cpu)
  = cpu_online c k && negb (Nat.eqb c cpu && hotplug_ok e cpu).
Proof.
  unfold unplug. destruct (cpu_online cpu k) eqn:Hon.
  - apply cpu_down_online.
  - destruct (Nat.eqb_spec c cpu) as [->|]; cbn [andb negb].
    + rewrite Hon. reflexivity.
    + now rewrite andb_true_r.
Qed.

Lemma plug_all_online (e : hw) (l : list nat) (k : kernel) (c : nat) :
  cpu_online c (fold_left (plug e) l k)
  = cpu_online c k
    || (existsb (Nat.eqb c) l && hotplug_ok e c && (c <? nr_cpu_ids)%nat).
Proof.
  revert k. induction l as [|cpu l IH]; intros k; cbn [fold_left existsb andb].
  - now rewrite orb_false_r.
  - rewrite IH, plug_online.
    destruct (Nat.eqb_spec c cpu) as [->|]; cbn [orb andb].
    + generalize (cpu_online cpu k) (hotplug_ok e cpu)
        (cpu <? nr_cpu_ids)%nat (existsb (Nat.eqb cpu) l).
      intros [] [] [] []; reflexivity.
    + now rewrite orb_false_r.
Qed.

Lemma unplug_all_online (e : hw) (l : list nat) (k : kernel) (c : nat) :
  cpu_online c (fold_left (unplug e) l k)
  = cpu_online c k && negb (existsb (Nat.eqb c) l && hotplug_ok e c).
Proof.
  revert k. induction l as [|cpu l IH]; intros k;
    cbn [fold_left existsb andb negb].
  - now rewrite andb_true_r.
  - rewrite IH, unplug_online.
    destruct (Nat.eqb_spec c cpu) as [->|]; cbn [orb andb negb].
    + generalize (cpu_online cpu k) (hotplug_ok e cpu)
        (existsb (Nat.eqb cpu) l).
      intros [] [] []; reflexivity.
    + now rewrite andb_true_r.
Qed.

Lemma plug_control (e : hw) (k : kernel) (cpu : nat) :
  same_control k (plug e k cpu).
Proof.
  unfold plug. destruct (negb (cpu_online cpu k)).
  - apply cpu_up_control.
  - apply same_control_refl.
Qed.

Lemma unplug_control (e : hw) (k : kernel) (cpu : nat) :
  same_control k (unplug e k cpu).
Proof.
  unfold unplug. destruct (cpu_online cpu k).
  - apply cpu_down_control.
  - apply same_control_refl.
Qed.

Lemma plug_all_control (e : hw) (l : list nat) (k : kernel) :
  same_control k (fold_left (plug e) l k).
Proof.
  revert k. induction l as [|cpu l IH]; intros k; cbn [fold_left].
  - apply same_control_refl.
  - eapply same_control_trans; [apply plug_control|apply IH].
Qed.

Lemma unplug_all_control (e : hw) (l : list nat) (k : kernel) :
  same_control k (fold_left (unplug e) l k).
Proof.
  revert k. induction l as [|cpu l IH]; intros k; cbn [fold_left].
  - apply same_control_refl.
  - eapply same_control_trans; [apply unplug_control|apply IH].
Qed.

Lemma plug_all_log (e : hw) (l : list nat) (k : kernel) :
  log_grows spares_cpu0 k (fold_left (plug e) l k).
Proof.
  revert k. induction l as [|cpu l IH]; intros k; cbn [fold_left].
  - apply log_grows_refl.
  - eapply log_grows_trans; [|apply IH].
    unfold plug. destruct (negb (cpu_online cpu k)).
    + eapply log_grows_one; [apply cpu_up_log|discriminate].
    + apply log_grows_refl.
Qed.

Lemma unplug_all_log (e : hw) (l : list nat) (k : kernel) :
  Forall (fun cpu => cpu <> O) l ->
  log_grows spares_cpu0 k (fold_left (unplug e) l k).
Proof.
  revert k. induction l as [|cpu l IH]; intros k Hl; cbn [fold_left].
  - apply log_grows_refl.
  - inversion Hl as [|? ? Hcpu Hl']; subst.
    eapply log_grows_trans; [|apply IH; exact Hl'].
    unfold unplug. destruct (cpu_online cpu k).
    + eapply log_grows_one; [apply cpu_down_log|].
      intros H; injection H as ->. contradiction.
    + apply log_grows_refl.
Qed.

Lemma hotplug_cpus_nonzero : Forall (fun cpu => cpu <> O) hotplug_cpus.
Proof.
  unfold hotplug_cpus. destruct (2 <? CONFIG_NR_CPUS)%nat.
  - apply Forall_forall. intros c Hc. apply in_seq in Hc. lia.
  - constructor; [discriminate|constructor].
Qed.

Lemma hotplug_cpus_cover (c : nat) :
  (nr_cpu_ids <= CONFIG_NR_CPUS)%nat -> (0 < c < nr_cpu_ids)%nat ->
  existsb (Nat.eqb c) hotplug_cpus = true.
Proof.
  intros Hle Hc. apply existsb_exists. exists c. split; [|apply Nat.eqb_refl].
  unfold hotplug_cpus. destruct (Nat.ltb_spec 2 CONFIG_NR_CPUS).
  - apply in_seq. lia.
  - left. lia.
Qed.

Lemma hotplug_cpus_no0 : existsb (Nat.eqb 0) hotplug_cpus = false.
Proof.
  destruct (existsb (Nat.eqb 0) hotplug_cpus) eqn:H; [|reflexivity].
  apply existsb_exists in H. destruct H as (c & Hin & Heq).
  apply Nat.eqb_eq in Heq. subst c.
  pose proof hotplug_cpus_nonzero as F. rewrite Forall_forall in F.
  now apply F in Hin.
Qed.

(** ** The search for the slowest CPU *)

Lemma slowest_upto_S (e : hw) (m : cpumask) (n : nat) :
  slowest_upto e m (S n)
  = if cpumask_test_cpu n m
    then slowest_step e (slowest_upto e m n) n
    else slowest_upto e m n.
Proof.
  unfold slowest_upto. rewrite seq_S, filter_app, fold_left_app.
  cbn [filter Nat.add]. destruct (cpumask_test_cpu n m); reflexivity.
Qed.

Lemma get_slowest_cpu_upto (e : hw) (k : kernel) :
  get_slowest_cpu e k = fst (slowest_upto e (cpu_online_mask k) nr_cpu_ids).
Proof. reflexivity. Qed.

(** While no CPU other than 0 is online the search keeps its initial
    answer, CPU 1. *)
Lemma slowest_upto_none (e : hw) (m : cpumask) (n : nat) :
  (forall c, (0 < c < n)%nat -> cpumask_test_cpu c m = false) ->
  slowest_upto e m n = (1%nat, ULONG_MAX).
Proof.
  induction n as [|n IH]; intros Hnone; [reflexivity|].
  rewrite slowest_upto_S, IH by (intros c Hc; apply Hnone; lia).
  destruct (cpumask_test_cpu n m) eqn:Hn; [|reflexivity].
  destruct n as [|n]; [reflexivity|].
  rewrite Hnone in Hn by lia. discriminate.
Qed.

Lemma slowest_upto_inv (e : hw) (m : cpumask) (n : nat) :
  let r := slowest_upto e m n in
  (1 <= fst r)%nat /\ snd r <= ULONG_MAX
  /\ (forall c, (0 < c < n)%nat -> cpumask_test_cpu c m = true ->
                snd r <= cpufreq_get e c)
  /\ (r = (1%nat, ULONG_MAX)
      \/ ((fst r < n)%nat /\ cpumask_test_cpu (fst r) m = true
          /\ snd r = cpufreq_get e (fst r) /\ snd r < ULONG_MAX
          /\ forall c, (0 < c < n)%nat -> cpumask_test_cpu c m = true ->
                       cpufreq_get e c = snd r -> (fst r <= c)%nat)).
Proof.
  cbv zeta. induction n as [|n IH].
  - cbn. split; [lia|]. split; [lia|]. split; [intros; lia|now left].
  - rewrite slowest_upto_S.
    destruct IH as (H1 & Hmax & Hmin & Hwho).
    destruct (cpumask_test_cpu n m) eqn:Hn.
    + unfold slowest_step.
      destruct (Nat.ltb_spec 0 n) as [Hpos|Hzero].
      * destruct (Z.ltb_spec (cpufreq_get e n) (snd (slowest_upto e m n)))
          as [Hlt|Hge]; cbn [fst snd].
        -- split; [lia|]. split; [lia|]. split.
           ++ intros c Hc Hon.
              destruct (Nat.eq_dec c n) as [->|Hne]; [lia|].
              specialize (Hmin c ltac:(lia) Hon). lia.
           ++ right. split; [lia|]. split; [exact Hn|]. split; [reflexivity|].
              split; [lia|]. intros c Hc Hon Heq.
              destruct (Nat.eq_dec c n) as [->|Hne]; [lia|].
              specialize (Hmin c ltac:(lia) Hon). lia.
        -- split; [exact H1|]. split; [exact Hmax|]. split.
           ++ intros c Hc Hon.
              destruct (Nat.eq_dec c n) as [->|Hne]; [lia|].
              apply Hmin; [lia|exact Hon].
           ++ destruct Hwho as [Hinit|(Hlt & Hon & Hrate & Hbelow & Hfirst)];
                [now left|right].
              split; [lia|]. split; [exact Hon|]. split; [exact Hrate|].
              split; [exact Hbelow|]. intros c Hc Honc Heq.
              destruct (Nat.eq_dec c n) as [->|Hne]; [lia|].
              apply Hfirst; [lia|exact Honc|exact Heq].
      * split; [exact H1|]. split; [exact Hmax|]. split.
        -- intros c Hc Hon. apply Hmin; [lia|exact Hon].
        -- destruct Hwho as [Hinit|(Hlt & Hon & Hrate & Hbelow & Hfirst)];
             [now left|right].
           split; [lia|]. split; [exact Hon|]. split; [exact Hrate|].
           split; [exact Hbelow|]. intros c Hc Honc Heq.
           apply Hfirst; [lia|exact Honc|exact Heq].
    + split; [exact H1|]. split; [exact Hmax|]. split.
      * intros c Hc Hon.
        destruct (Nat.eq_dec c n) as [->|Hne]; [congruence|].
        apply Hmin; [lia|exact Hon].
      * destruct Hwho as [Hinit|(Hlt & Hon & Hrate & Hbelow & Hfirst)];
          [now left|right].
        split; [lia|]. split; [exact Hon|]. split; [exact Hrate|].
        split; [exact Hbelow|]. intros c Hc Honc Heq.
        destruct (Nat.eq_dec c n) as [->|Hne]; [congruence|].
        apply Hfirst; [lia|exact Honc|exact Heq].
Qed.

Lemma get_slowest_cpu_pos (e : hw) (k : kernel) :
  (1 <= get_slowest_cpu e k)%nat.
Proof.
  rewrite get_slowest_cpu_upto.
  apply (slowest_upto_inv e (cpu_online_mask k) nr_cpu_ids).
Qed.

Lemma get_slowest_cpu_default (e : hw) (k : kernel) :
  (forall c, (0 < c < nr_cpu_ids)%nat -> cpu_online c k = false) ->
  get_slowest_cpu e k = 1%nat.
Proof.
  intros Hnone. rewrite get_slowest_cpu_upto, slowest_upto_none; auto.
Qed.

Lemma get_slowest_cpu_spec (e : hw) (k : kernel) (c0 : nat) :
  (0 < c0 < nr_cpu_ids)%nat -> cpu_online c0 k = true ->
  cpufreq_get e c0 < ULONG_MAX ->
  let r := get_slowest_cpu e k in
  (0 < r < nr_cpu_ids)%nat /\ cpu_online r k = true
  /\ forall c, (0 < c < nr_cpu_ids)%nat -> cpu_online c k = true ->
               cpufreq_get e r <= cpufreq_get e c
               /\ (cpufreq_get e c = cpufreq_get e r -> (r <= c)%nat).
Proof.
  intros Hc0 Hon0 Hrate0. cbv zeta. rewrite get_slowest_cpu_upto.
  destruct (slowest_upto_inv e (cpu_online_mask k) nr_cpu_ids)
    as (H1 & Hmax & Hmin & Hwho).
  destruct Hwho as [Hinit|(Hlt & Hon & Hrate & Hbelow & Hfirst)].
  - specialize (Hmin c0 Hc0 Hon0). rewrite Hinit in Hmin. cbn in Hmin. lia.
  - split; [lia|]. split; [exact Hon|]. intros c Hc Honc. split.
    + rewrite <- Hrate. apply Hmin; assumption.
    + intros Heq. apply Hfirst; [exact Hc|exact Honc|congruence].
Qed.

(** ** One tick *)

Lemma queue_delayed_work_keeps (d : Z) (k : kernel) :
  same_control_but_work k (queue_delayed_work d k).
Proof. unfold queue_delayed_work. destruct (asmp_work k); repeat split. Qed.

Lemma queue_param (d : Z) (k : kernel) :
  asmp_param (queue_delayed_work d k) = asmp_param k.
Proof. apply queue_delayed_work_keeps. Qed.

Lemma queue_cycle (d : Z) (k : kernel) :
  cycle (queue_delayed_work d k) = cycle k.
Proof. apply queue_delayed_work_keeps. Qed.

Lemma queue_enabled (d : Z) (k : kernel) :
  enabled (queue_delayed_work d k) = enabled k.
Proof. apply queue_delayed_work_keeps. Qed.

Lemma queue_rq_avg (d : Z) (k : kernel) :
  rq_avg (queue_delayed_work d k) = rq_avg k.
Proof. apply queue_delayed_work_keeps. Qed.

Lemma queue_mask (d : Z) (k : kernel) :
  cpu_online_mask (queue_delayed_work d k) = cpu_online_mask k.
Proof. apply queue_delayed_work_keeps. Qed.

Lemma queue_log (d : Z) (k : kernel) :
  hotplug_log (queue_delayed_work d k) = hotplug_log k.
Proof. apply queue_delayed_work_keeps. Qed.

(** Reads a field through [queue_delayed_work] and the setters. *)
Ltac through_queue :=
  rewrite ?queue_param, ?queue_cycle, ?queue_enabled, ?queue_rq_avg,
    ?queue_mask, ?queue_log;
  cbn [set_cycle set_rq_avg asmp_param cycle enabled rq_avg
       cpu_online_mask hotplug_log].

(** The tick, with its local variables named after the source's. *)
Lemma asmp_work_fn_eq (e : hw) (k : kernel) :
  asmp_work_fn e k
  = let c := uint (cycle k + 1) in
    let k2 := set_rq_avg 0 (set_cycle c k) in
    let p := asmp_param k in
    let nr_cpu_online := num_online_cpus k in
    let rq := rq_avg k in
    let k3 :=
      if up_cond p nr_cpu_online rq then
        if cycle_up p <=? c
        then set_cycle 0 (snd (cpu_up e (cpu_to_bring_up k) k2))
        else k2
      else if down_cond p nr_cpu_online rq then
        if cycle_down p <=? c
        then set_cycle 0 (snd (cpu_down e (cpu_to_take_down e k) k2))
        else k2
      else k2 in
    queue_delayed_work (delay (asmp_param k3)) k3.
Proof. reflexivity. Qed.

(** What one tick does, in three cases: it brings a CPU up, takes one
    down, or holds.  The counter is the incremented one exactly when it
    holds, and 0 otherwise, whatever the hotplug facility answers. *)
Lemma asmp_work_fn_cases (e : hw) (k : kernel) :
  let k' := asmp_work_fn e k in
  let c := uint (cycle k + 1) in
  let p := asmp_param k in
  let n := num_online_cpus k in
  let rq := rq_avg k in
  asmp_param k' = p /\ enabled k' = enabled k /\ rq_avg k' = 0
  /\ ((up_cond p n rq = true /\ cycle_up p <= c
       /\ cycle k' = 0
       /\ hotplug_log k' = CpuUp (cpu_to_bring_up k) :: hotplug_log k
       /\ cpu_online_mask k'
          = cpu_online_mask (snd (cpu_up e (cpu_to_bring_up k) k)))
      \/ (up_cond p n rq = false /\ down_cond p n rq = true
          /\ cycle_down p <= c
          /\ cycle k' = 0
          /\ hotplug_log k' = CpuDown (cpu_to_take_down e k) :: hotplug_log k
          /\ cpu_online_mask k'
             = cpu_online_mask (snd (cpu_down e (cpu_to_take_down e k) k)))
      \/ ((up_cond p n rq = true /\ c < cycle_up p
           \/ up_cond p n rq = false /\ down_cond p n rq = true
              /\ c < cycle_down p
           \/ up_cond p n rq = false /\ down_cond p n rq = false)
          /\ cycle k' = c
          /\ hotplug_log k' = hotplug_log k
          /\ cpu_online_mask k' = cpu_online_mask k)).
Proof.
  cbv zeta. rewrite asmp_work_fn_eq. cbv zeta.
  set (c := uint (cycle k + 1)).
  set (k2 := set_rq_avg 0 (set_cycle c k)).
  destruct (up_cond (asmp_param k) (num_online_cpus k) (rq_avg k)) eqn:Hup.
  - destruct (Z.leb_spec (cycle_up (asmp_param k)) c) as [Hc|Hc].
    + pose proof (cpu_up_control e (cpu_to_bring_up k) k2)
        as (Hp & _ & He & Hr & _).
      pose proof (cpu_up_log e (cpu_to_bring_up k) k2) as Hlog.
      through_queue. rewrite Hp, He, Hr, Hlog.
      repeat split. left. repeat split; try assumption.
      rewrite !cpu_up_eq. unfold k2, cpu_online.
      cbn [cpu_online_mask set_rq_avg set_cycle].
      split_ifs; reflexivity.
    + through_queue.
      repeat split. right; right. repeat split. left. split; [reflexivity|lia].
  - destruct (down_cond (asmp_param k) (num_online_cpus k) (rq_avg k)) eqn:Hdn.
    + destruct (Z.leb_spec (cycle_down (asmp_param k)) c) as [Hc|Hc].
      * pose proof (cpu_down_control e (cpu_to_take_down e k) k2)
          as (Hp & _ & He & Hr & _).
        pose proof (cpu_down_log e (cpu_to_take_down e k) k2) as Hlog.
        through_queue. rewrite Hp, He, Hr, Hlog.
        repeat split. right; left. repeat split; try assumption.
        rewrite !cpu_down_eq. unfold k2, cpu_online.
        cbn [cpu_online_mask set_rq_avg set_cycle].
        split_ifs; reflexivity.
      * through_queue.
        repeat split. right; right. repeat split.
        right; left. repeat split. lia.
    + through_queue.
      repeat split. right; right. repeat split. right; right.
      split; reflexivity.
Qed.

Lemma cpu_online_same_mask (c : nat) (k k' : kernel) :
  cpu_online_mask k' = cpu_online_mask k -> cpu_online c k' = cpu_online c k.
Proof. intros H. unfold cpu_online. now rewrite H. Qed.

Lemma cpu_to_take_down_pos (e : hw) (k : kernel) :
  (1 <= cpu_to_take_down e k)%nat.
Proof.
  unfold cpu_to_take_down. destruct (2 <? CONFIG_NR_CPUS)%nat; [|lia].
  apply get_slowest_cpu_pos.
Qed.

(** ** Unit 0 stays online *)

Lemma asmp_work_fn_cpu0 (e : hw) (k : kernel) :
  cpu_online 0 k = true ->
  cpu_online 0 (asmp_work_fn e k) = true
  /\ log_grows spares_cpu0 k (asmp_work_fn e k).
Proof.
  intros H0.
  destruct (asmp_work_fn_cases e k) as (_ & _ & _ & Hcases).
  destruct Hcases as [(_ & _ & _ & Hlog & Hmask)
                     |[(_ & _ & _ & _ & Hlog & Hmask)
                      |(_ & _ & Hlog & Hmask)]].
  - split.
    + rewrite (cpu_online_same_mask 0 _ _ Hmask), cpu_up_online, H0.
      reflexivity.
    + eapply log_grows_one; [exact Hlog|discriminate].
  - pose proof (cpu_to_take_down_pos e k) as Hpos. split.
    + rewrite (cpu_online_same_mask 0 _ _ Hmask), cpu_down_online, H0.
      destruct (Nat.eqb_spec 0 (cpu_to_take_down e k)); [lia|reflexivity].
    + eapply log_grows_one; [exact Hlog|].
      intros Heq. injection Heq as Heq. lia.
  - split.
    + now rewrite (cpu_online_same_mask 0 _ _ Hmask).
    + now apply log_grows_same.
Qed.

Lemma step_cpu0 (k : kernel) (ev : event) :
  cpu_online 0 k = true ->
  cpu_online 0 (step k ev) = true /\ log_grows spares_cpu0 k (step k ev).
Proof.
  intros H0. destruct ev as [e|rq|e|e|e val|a input count]; cbn [step].
  - unfold run_asmp_work. destruct (asmp_work k).
    + apply (asmp_work_fn_cpu0 e (set_work None k)). exact H0.
    + split; [exact H0|apply log_grows_refl].
  - split; [exact H0|apply log_grows_same; reflexivity].
  - unfold asmp_early_suspend.
    set (k1 := if scroff_single_core (asmp_param k)
               then fold_left (unplug e) hotplug_cpus k else k).
    assert (H1 : cpu_online 0 k1 = true /\ log_grows spares_cpu0 k k1).
    { unfold k1. destruct (scroff_single_core (asmp_param k)).
      - split.
        + rewrite unplug_all_online, H0, hotplug_cpus_no0. reflexivity.
        + apply unplug_all_log, hotplug_cpus_nonzero.
      - split; [exact H0|apply log_grows_refl]. }
    destruct (enabled k1); exact H1.
  - unfold asmp_late_resume.
    set (k1 := if scroff_single_core (asmp_param k)
               then fold_left (plug e) hotplug_cpus k else k).
    assert (H1 : cpu_online 0 k1 = true /\ log_grows spares_cpu0 k k1).
    { unfold k1. destruct (scroff_single_core (asmp_param k)).
      - split.
        + rewrite plug_all_online, H0. reflexivity.
        + apply plug_all_log.
      - split; [exact H0|apply log_grows_refl]. }
    destruct (enabled k1).
    + destruct H1 as (Hon & Hlog). split.
      * now rewrite (cpu_online_same_mask 0 _ _ (queue_mask _ _)).
      * eapply log_grows_trans; [exact Hlog|].
        apply log_grows_same, queue_log.
    + exact H1.
  - unfold set_enabled.
    destruct (param_set_bool val k) as [ret k1] eqn:Hset.
    assert (H1 : cpu_online 0 k1 = true
                 /\ hotplug_log k1 = hotplug_log k).
    { unfold param_set_bool in Hset. destruct val; inversion Hset; subst;
        split; auto. }
    destruct H1 as (Hon1 & Hlog1).
    destruct (enabled k1); cbn [snd].
    + split.
      * now rewrite (cpu_online_same_mask 0 _ _ (queue_mask _ _)).
      * apply log_grows_same. now rewrite queue_log.
    + split.
      * rewrite plug_all_online. unfold cancel_delayed_work_sync.
        change (cpu_online 0 (set_work None k1)) with (cpu_online 0 k1).
        now rewrite Hon1.
      * eapply log_grows_trans; [|apply plug_all_log].
        apply log_grows_same. exact Hlog1.
  - unfold store_one. destruct input; cbn [snd];
      (split; [exact H0|apply log_grows_same; reflexivity]).
Qed.

Lemma run_cpu0 (evs : list event) (k : kernel) :
  cpu_online 0 k = true ->
  cpu_online 0 (run evs k) = true /\ log_grows spares_cpu0 k (run evs k).
Proof.
  revert k. induction evs as [|ev evs IH]; intros k H0; cbn [run fold_left].
  - split; [exact H0|apply log_grows_refl].
  - destruct (step_cpu0 k ev H0) as (H1 & Hlog1).
    destruct (IH (step k ev) H1) as (H2 & Hlog2).
    split; [exact H2|]. eapply log_grows_trans; eassumption.
Qed.

(** C1.  In every state the controller reaches from one where unit 0 is
    online, through any sequence of ticks, load reports, suspends,
    resumes, writes of [enabled] and writes of the tunables, and whatever
    the hotplug facility answers, unit 0 is online, at least one unit is
    online, and no request to take unit 0 down has been made. *)
Theorem unit0_never_offline (evs : list event) (k : kernel) :
  (0 < CONFIG_NR_CPUS)%nat ->
  cpu_online 0 k = true ->
  cpu_online 0 (run evs k) = true
  /\ 1 <= num_online_cpus (run evs k)
  /\ exists new,
       hotplug_log (run evs k) = new ++ hotplug_log k
       /\ ~ In (CpuDown 0) new.
Proof.
  intros Hcfg H0. destruct (run_cpu0 evs k H0) as (Hon & new & Hlog & Hnew).
  split; [exact Hon|]. split.
  - rewrite num_online_cpus_weight.
    pose proof (bitmap_weight_pos (cpu_online_mask (run evs k))
                  CONFIG_NR_CPUS Hcfg Hon). lia.
  - exists new. split; [exact Hlog|]. intros Hin.
    rewrite Forall_forall in Hnew. apply (Hnew _ Hin). reflexivity.
Qed.

(** ** The counter and the hysteresis *)

Lemma cons_neq {A : Type} (a : A) (l : list A) : a :: l <> l.
Proof.
  revert a. induction l as [|b l IH]; intros a H; [discriminate|].
  injection H as _ H. exact (IH b H).
Qed.

(** C2, as the code has it.  Every tick increments the counter first,
    modulo 2^32, dead band or not: a tick in which neither the scale-up
    nor the scale-down condition holds ends with the counter one higher and
    with the pool untouched.  The counter is set to 0 in exactly the ticks
    that make a hotplug request and keeps the incremented value in all
    others. *)
Theorem cycle_counts_every_tick (e : hw) (k : kernel) :
  let k' := asmp_work_fn e k in
  let p := asmp_param k in
  let n := num_online_cpus k in
  let rq := rq_avg k in
  (up_cond p n rq = false -> down_cond p n rq = false ->
   cycle k' = uint (cycle k + 1)
   /\ hotplug_log k' = hotplug_log k
   /\ cpu_online_mask k' = cpu_online_mask k)
  /\ (hotplug_log k' = hotplug_log k -> cycle k' = uint (cycle k + 1))
  /\ (hotplug_log k' <> hotplug_log k -> cycle k' = 0).
Proof.
  cbv zeta. destruct (asmp_work_fn_cases e k) as (_ & _ & _ & Hcases).
  destruct Hcases as [(Hup & _ & Hcyc & Hlog & _)
                     |[(Hup & Hdn & _ & Hcyc & Hlog & _)
                      |(_ & Hcyc & Hlog & Hmask)]].
  - split; [intros Hnu; congruence|]. split.
    + intros Heq. rewrite Hlog in Heq. now apply cons_neq in Heq.
    + intros _. exact Hcyc.
  - split; [intros _ Hnd; congruence|]. split.
    + intros Heq. rewrite Hlog in Heq. now apply cons_neq in Heq.
    + intros _. exact Hcyc.
  - split; [intros _ _; auto|]. split.
    + intros _. exact Hcyc.
    + intros Hne. contradiction.
Qed.

(** One tick that reads the load [rq], in the scale-up region. *)
Lemma tick_up_region (e : hw) (rq : Z) (k : kernel) :
  up_cond (asmp_param k) (num_online_cpus k) rq = true ->
  let k' := tick e rq k in
  let c := uint (cycle k + 1) in
  asmp_param k' = asmp_param k
  /\ ((cycle_up (asmp_param k) <= c /\ cycle k' = 0
       /\ hotplug_log k' = CpuUp (cpu_to_bring_up k) :: hotplug_log k
       /\ cpu_online_mask k'
          = cpu_online_mask (snd (cpu_up e (cpu_to_bring_up k) k)))
      \/ (c < cycle_up (asmp_param k) /\ cycle k' = c
          /\ hotplug_log k' = hotplug_log k
          /\ cpu_online_mask k' = cpu_online_mask k)).
Proof.
  intros Hup. cbv zeta. unfold tick.
  destruct (asmp_work_fn_cases e (set_work None (set_rq_avg rq k)))
    as (Hp & _ & _ & Hcases).
  cbn [set_work set_rq_avg asmp_param cycle rq_avg cpu_online_mask
       hotplug_log] in Hp, Hcases.
  change (num_online_cpus (set_work None (set_rq_avg rq k)))
    with (num_online_cpus k) in Hcases.
  change (cpu_to_bring_up (set_work None (set_rq_avg rq k)))
    with (cpu_to_bring_up k) in Hcases.
  split; [exact Hp|].
  destruct Hcases as [(_ & Hc & Hcyc & Hlog & Hmask)
                     |[(Hnu & _)
                      |([(_ & Hc)|[(Hnu & _)|(Hnu & _)]]
                        & Hcyc & Hlog & Hmask)]];
    try congruence.
  - left. repeat split; try assumption.
    rewrite Hmask, !cpu_up_eq. unfold cpu_online.
    cbn [cpu_online_mask set_work set_rq_avg]. split_ifs; reflexivity.
  - right. repeat split; assumption.
Qed.

Lemma num_online_same_mask (k k' : kernel) :
  cpu_online_mask k' = cpu_online_mask k ->
  num_online_cpus k' = num_online_cpus k.
Proof. intros H. unfold num_online_cpus. now rewrite H. Qed.

(** The unit [cpumask_next_zero] finds for the tick: the offline unit
    with the lowest id above 0, whenever there is one. *)
Lemma cpu_to_bring_up_spec (k : kernel) (c0 : nat) :
  (nr_cpu_ids <= CONFIG_NR_CPUS)%nat ->
  (0 < c0 < nr_cpu_ids)%nat -> cpu_online c0 k = false ->
  let r := cpu_to_bring_up k in
  (0 < r < nr_cpu_ids)%nat /\ cpu_online r k = false
  /\ forall c, (0 < c < nr_cpu_ids)%nat -> cpu_online c k = false ->
               (r <= c)%nat.
Proof.
  intros Hcfg Hc0 Hoff0. cbv zeta. unfold cpu_to_bring_up.
  destruct (Nat.ltb_spec 2 CONFIG_NR_CPUS) as [Hbig|Hsmall].
  - unfold cpumask_next_zero.
    destruct (find_next_zero_bit_spec (cpu_online_mask k) CONFIG_NR_CPUS 1
                ltac:(lia)) as (Hr & Hset & Hclr).
    set (r := find_next_zero_bit (cpu_online_mask k) CONFIG_NR_CPUS 1) in *.
    assert (Hmin : forall c, (0 < c < nr_cpu_ids)%nat ->
                             cpu_online c k = false -> (r <= c)%nat).
    { intros c Hc Hoff.
      destruct (Nat.le_gt_cases r c) as [Hle|Hgt]; [exact Hle|].
      unfold cpu_online in Hoff. rewrite Hset in Hoff by lia. discriminate. }
    pose proof (Hmin c0 Hc0 Hoff0) as Hle.
    split; [lia|]. split; [|exact Hmin].
    apply Hclr. lia.
  - assert (c0 = 1%nat) by lia. subst c0.
    split; [lia|]. split; [exact Hoff0|].
    intros c Hc _. lia.
Qed.

(** C3.  With [cycle_up] = 3, fewer units online than [max_cpus] and the
    counter at 0, three ticks in a row that each read a load of at least
    [load_limit_up] make exactly one bring-online request, in the third
    tick: the first two leave the pool and the request log as they were.
    Whenever some unit other than unit 0 is offline, the unit requested is
    an offline one, and when the hotplug facility carries the request out
    that unit is online afterwards and one more unit is online than
    before. *)
Theorem three_ticks_one_scale_up (e1 e2 e3 : hw) (l1 l2 l3 : Z) (k : kernel) :
  cycle_up (asmp_param k) = 3 ->
  cycle k = 0 ->
  num_online_cpus k < max_cpus (asmp_param k) ->
  load_limit_up (asmp_param k) <= l1 ->
  load_limit_up (asmp_param k) <= l2 ->
  load_limit_up (asmp_param k) <= l3 ->
  let k1 := tick e1 l1 k in
  let k2 := tick e2 l2 k1 in
  let k3 := tick e3 l3 k2 in
  let cpu := cpu_to_bring_up k in
  (hotplug_log k1 = hotplug_log k
   /\ cpu_online_mask k1 = cpu_online_mask k /\ cycle k1 = 1)
  /\ (hotplug_log k2 = hotplug_log k
      /\ cpu_online_mask k2 = cpu_online_mask k /\ cycle k2 = 2)
  /\ (hotplug_log k3 = CpuUp cpu :: hotplug_log k /\ cycle k3 = 0
      /\ cpu_online_mask k3 = cpu_online_mask (snd (cpu_up e3 cpu k)))
  /\ ((nr_cpu_ids <= CONFIG_NR_CPUS)%nat ->
      (exists c0, (0 < c0 < nr_cpu_ids)%nat /\ cpu_online c0 k = false) ->
      cpu_online cpu k = false
      /\ (hotplug_ok e3 cpu = true ->
          cpu_online cpu k3 = true
          /\ num_online_cpus k3 = num_online_cpus k + 1)).
Proof.
  intros Hcu Hc0 Hcap H1 H2 H3. cbv zeta.
  assert (Hup : forall l, load_limit_up (asmp_param k) <= l ->
                up_cond (asmp_param k) (num_online_cpus k) l = true).
  { intros l Hl. unfold up_cond. apply andb_true_intro. split.
    - apply Z.ltb_lt. exact Hcap.
    - apply Z.leb_le. exact Hl. }
  (* first tick *)
  destruct (tick_up_region e1 l1 k (Hup l1 H1)) as (Hp1 & Hcase1).
  rewrite Hc0, Hcu in Hcase1. change (uint (0 + 1)) with 1 in Hcase1.
  destruct Hcase1 as [(Hbad & _)|(_ & Hcyc1 & Hlog1 & Hmask1)]; [lia|].
  set (k1 := tick e1 l1 k) in *.
  (* second tick *)
  assert (Hup1 : up_cond (asmp_param k1) (num_online_cpus k1) l2 = true).
  { rewrite Hp1, (num_online_same_mask _ _ Hmask1). apply Hup, H2. }
  destruct (tick_up_region e2 l2 k1 Hup1) as (Hp2 & Hcase2).
  rewrite Hcyc1, Hp1, Hcu in Hcase2. change (uint (1 + 1)) with 2 in Hcase2.
  destruct Hcase2 as [(Hbad & _)|(_ & Hcyc2 & Hlog2 & Hmask2)]; [lia|].
  set (k2 := tick e2 l2 k1) in *.
  (* third tick *)
  assert (Hup2 : up_cond (asmp_param k2) (num_online_cpus k2) l3 = true).
  { rewrite Hp2, Hp1, (num_online_same_mask _ _ Hmask2),
      (num_online_same_mask _ _ Hmask1). apply Hup, H3. }
  destruct (tick_up_region e3 l3 k2 Hup2) as (Hp3 & Hcase3).
  rewrite Hcyc2, Hp2, Hp1, Hcu in Hcase3.
  change (uint (2 + 1)) with 3 in Hcase3.
  destruct Hcase3 as [(_ & Hcyc3 & Hlog3 & Hmask3)|(Hbad & _)]; [|lia].
  set (k3 := tick e3 l3 k2) in *.
  assert (Hsel : cpu_to_bring_up k2 = cpu_to_bring_up k).
  { unfold cpu_to_bring_up. now rewrite Hmask2, Hmask1. }
  assert (Hmask3' : cpu_online_mask k3
                    = cpu_online_mask (snd (cpu_up e3 (cpu_to_bring_up k) k))).
  { rewrite Hmask3, Hsel, !cpu_up_eq. unfold cpu_online.
    rewrite Hmask2, Hmask1. split_ifs; cbn [set_mask log_call cpu_online_mask];
      congruence. }
  split; [repeat split; congruence|].
  split; [repeat split; congruence|].
  split; [repeat split; congruence|].
  intros Hids (c0 & Hin0 & Hoff0).
  destruct (cpu_to_bring_up_spec k c0 Hids Hin0 Hoff0)
    as (Hsel_in & Hoff & _).
  split; [exact Hoff|]. intros Hok.
  assert (Hnr : (cpu_to_bring_up k <? nr_cpu_ids)%nat = true)
    by (apply Nat.ltb_lt; lia).
  assert (Hcfg : (cpu_to_bring_up k <? CONFIG_NR_CPUS)%nat = true)
    by (apply Nat.ltb_lt; lia).
  split.
  - rewrite (cpu_online_same_mask _ _ _ Hmask3'), cpu_up_online, Hok, Hnr.
    rewrite Nat.eqb_refl. apply orb_true_r.
  - rewrite !num_online_cpus_weight, Hmask3', cpu_up_eq, Hok, Hoff, Hnr.
    cbn [andb negb set_mask cpu_online_mask].
    cbn [log_call cpu_online_mask].
    rewrite bitmap_weight_set_cpu by exact Hoff.
    rewrite Hcfg. lia.
Qed.

(** ** Failures of the hotplug facility *)

(** C7, as the code has it.  The tick discards what [cpu_up] and
    [cpu_down] return: whenever it makes a hotplug request the counter is 0
    afterwards, whether the request is carried out or refused, and a
    refused request leaves the pool as it was.  The request made and the
    counter are the same whatever the hotplug facility answers.  With both
    cycle thresholds above 1, the tick that follows a request makes none,
    whatever load it reads. *)
Theorem refusal_resets_cycle (e : hw) (k : kernel) :
  let k' := asmp_work_fn e k in
  (forall call, hotplug_log k' = call :: hotplug_log k ->
     cycle k' = 0
     /\ (hotplug_ok e match call with CpuUp c | CpuDown c => c end = false ->
         cpu_online_mask k' = cpu_online_mask k))
  /\ (forall ok',
        let k'' := asmp_work_fn (mk_hw ok' (cpufreq_get e)) k in
        cycle k'' = cycle k' /\ hotplug_log k'' = hotplug_log k')
  /\ (forall call e2 rq, hotplug_log k' = call :: hotplug_log k ->
        1 < cycle_up (asmp_param k) -> 1 < cycle_down (asmp_param k) ->
        hotplug_log (tick e2 rq k') = hotplug_log k').
Proof.
  cbv zeta.
  assert (Hreset : forall call,
             hotplug_log (asmp_work_fn e k) = call :: hotplug_log k ->
             cycle (asmp_work_fn e k) = 0).
  { intros call Hcall.
    destruct (asmp_work_fn_cases e k) as (_ & _ & _ & Hcases).
    destruct Hcases as [(_ & _ & Hcyc & _)
                       |[(_ & _ & _ & Hcyc & _)
                        |(_ & _ & Hlog & _)]]; try exact Hcyc.
    rewrite Hlog in Hcall. symmetry in Hcall. now apply cons_neq in Hcall. }
  split; [|split].
  3: { intros call e2 rq Hcall Hcu Hcd. unfold tick.
       pose proof (Hreset call Hcall) as Hc0.
       destruct (asmp_work_fn_cases e k) as (Hp & _).
       destruct (asmp_work_fn_cases e2
                   (set_work None (set_rq_avg rq (asmp_work_fn e k))))
         as (_ & _ & _ & Hcases).
       cbn [set_work set_rq_avg asmp_param cycle hotplug_log] in Hcases.
       rewrite Hc0, Hp in Hcases. change (uint (0 + 1)) with 1 in Hcases.
       destruct Hcases as [(_ & Hbad & _)
                          |[(_ & _ & Hbad & _)
                           |(_ & _ & Hlog & _)]]; [lia|lia|exact Hlog]. }
  - intros call Hcall.
    destruct (asmp_work_fn_cases e k) as (_ & _ & _ & Hcases).
    destruct Hcases as [(_ & _ & Hcyc & Hlog & Hmask)
                       |[(_ & _ & _ & Hcyc & Hlog & Hmask)
                        |(_ & _ & Hlog & _)]].
    + rewrite Hlog in Hcall. injection Hcall as <-.
      split; [exact Hcyc|]. intros Hno.
      rewrite Hmask. now apply cpu_up_refused.
    + rewrite Hlog in Hcall. injection Hcall as <-.
      split; [exact Hcyc|]. intros Hno.
      rewrite Hmask. now apply cpu_down_refused.
    + rewrite Hlog in Hcall. symmetry in Hcall. now apply cons_neq in Hcall.
  - intros ok'.
    destruct (asmp_work_fn_cases e k) as (_ & _ & _ & Hcases).
    destruct (asmp_work_fn_cases (mk_hw ok' (cpufreq_get e)) k)
      as (_ & _ & _ & Hcases').
    change (cpu_to_take_down (mk_hw ok' (cpufreq_get e)) k)
      with (cpu_to_take_down e k) in Hcases'.
    destruct Hcases as [(Hup & Hc & Hcyc & Hlog & _)
                       |[(Hup & Hdn & Hc & Hcyc & Hlog & _)
                        |(Hwhy & Hcyc & Hlog & _)]];
      destruct Hcases' as [(Hup' & Hc' & Hcyc' & Hlog' & _)
                          |[(Hup' & Hdn' & Hc' & Hcyc' & Hlog' & _)
                           |(Hwhy' & Hcyc' & Hlog' & _)]];
      try (split; congruence);
      try (destruct Hwhy' as [(? & ?)|[(? & ? & ?)|(? & ?)]];
           try congruence; lia);
      try (destruct Hwhy as [(? & ?)|[(? & ? & ?)|(? & ?)]];
           try congruence; lia).
Qed.

(** ** Taking a unit down *)

Lemma get_slowest_cpu_in_pool (e : hw) (k : kernel) :
  (2 <= nr_cpu_ids)%nat -> (get_slowest_cpu e k < nr_cpu_ids)%nat.
Proof.
  intros Hnr. rewrite get_slowest_cpu_upto.
  destruct (slowest_upto_inv e (cpu_online_mask k) nr_cpu_ids)
    as (_ & _ & _ & [Hinit|(Hlt & _)]).
  - rewrite Hinit. cbn [fst]. lia.
  - exact Hlt.
Qed.

(** C8, as the code has it.  [get_slowest_cpu] has no error result and
    does not look at [min_cpus]: it always returns the id of a unit other
    than unit 0, and returns unit 1 when no such unit is online.  It is
    the tick that guards the floor: while no more than [min_cpus] units are
    online it makes no take-offline request and, unless a scale-up is due,
    leaves the pool as it was and the counter at its incremented value. *)
Theorem take_down_never_fails (e : hw) (k : kernel) :
  let k' := asmp_work_fn e k in
  let p := asmp_param k in
  (1 <= get_slowest_cpu e k)%nat
  /\ ((2 <= nr_cpu_ids)%nat -> (get_slowest_cpu e k < nr_cpu_ids)%nat)
  /\ ((forall c, (0 < c < nr_cpu_ids)%nat -> cpu_online c k = false) ->
      get_slowest_cpu e k = 1%nat)
  /\ (num_online_cpus k <= min_cpus p ->
      (forall c, hotplug_log k' <> CpuDown c :: hotplug_log k)
      /\ (up_cond p (num_online_cpus k) (rq_avg k) = false ->
          cycle k' = uint (cycle k + 1)
          /\ hotplug_log k' = hotplug_log k
          /\ cpu_online_mask k' = cpu_online_mask k)).
Proof.
  cbv zeta. split; [apply get_slowest_cpu_pos|].
  split; [apply get_slowest_cpu_in_pool|].
  split; [apply get_slowest_cpu_default|].
  intros Hfloor.
  assert (Hdn : down_cond (asmp_param k) (num_online_cpus k) (rq_avg k)
                = false).
  { unfold down_cond. apply andb_false_intro1. apply Z.ltb_ge. exact Hfloor. }
  destruct (asmp_work_fn_cases e k) as (_ & _ & _ & Hcases).
  destruct Hcases as [(Hup & _ & _ & Hlog & _)
                     |[(_ & Hdn' & _)
                      |(_ & Hcyc & Hlog & Hmask)]].
  - split.
    + intros c Heq. rewrite Hlog in Heq. discriminate.
    + intros Hnu. congruence.
  - congruence.
  - split.
    + intros c Heq. rewrite Hlog in Heq. symmetry in Heq.
      now apply cons_neq in Heq.
    + intros _. auto.
Qed.

(** ** Scale-up before scale-down *)

(** C10.  In a tick in which the scale-up condition and the scale-down
    condition both hold, no unit is taken offline: the tick makes no
    request or a bring-online request, no take-offline request, and every
    unit online before the tick is online after it. *)
Theorem scale_up_has_priority (e : hw) (k : kernel) :
  let k' := asmp_work_fn e k in
  let p := asmp_param k in
  up_cond p (num_online_cpus k) (rq_avg k) = true ->
  down_cond p (num_online_cpus k) (rq_avg k) = true ->
  (hotplug_log k' = hotplug_log k
   \/ hotplug_log k' = CpuUp (cpu_to_bring_up k) :: hotplug_log k)
  /\ (forall c, hotplug_log k' <> CpuDown c :: hotplug_log k)
  /\ (forall c, cpu_online c k = true -> cpu_online c k' = true).
Proof.
  cbv zeta. intros Hup Hdn.
  destruct (asmp_work_fn_cases e k) as (_ & _ & _ & Hcases).
  destruct Hcases as [(_ & _ & _ & Hlog & Hmask)
                     |[(Hnu & _)
                      |(_ & _ & Hlog & Hmask)]].
  - split; [now right|]. split.
    + intros c Heq. rewrite Hlog in Heq. discriminate.
    + intros c Hon.
      rewrite (cpu_online_same_mask c _ _ Hmask), cpu_up_online, Hon.
      reflexivity.
  - congruence.
  - split; [now left|]. split.
    + intros c Heq. rewrite Hlog in Heq. symmetry in Heq.
      now apply cons_neq in Heq.
    + intros c Hon. now rewrite (cpu_online_same_mask c _ _ Hmask).
Qed.

(** ** Which unit is chosen *)

(** C5.  The unit the tick takes down is the online unit other than unit
    0 with the lowest clock rate, the lowest id among those with that
    rate, whenever some such unit is online with a rate below the initial
    [slow_rate], [ULONG_MAX].  The unit it brings up is the offline unit
    with the lowest id, whenever unit 0 is online and some unit is
    offline. *)
Theorem selection_picks (e : hw) (k : kernel) :
  (nr_cpu_ids <= CONFIG_NR_CPUS)%nat ->
  ((exists c0, (0 < c0 < nr_cpu_ids)%nat /\ cpu_online c0 k = true
               /\ cpufreq_get e c0 < ULONG_MAX) ->
   let r := cpu_to_take_down e k in
   (0 < r < nr_cpu_ids)%nat /\ cpu_online r k = true
   /\ forall c, (0 < c < nr_cpu_ids)%nat -> cpu_online c k = true ->
                cpufreq_get e r <= cpufreq_get e c
                /\ (cpufreq_get e c = cpufreq_get e r -> (r <= c)%nat))
  /\ (cpu_online 0 k = true ->
      (exists c0, (c0 < nr_cpu_ids)%nat /\ cpu_online c0 k = false) ->
      let r := cpu_to_bring_up k in
      (r < nr_cpu_ids)%nat /\ cpu_online r k = false
      /\ forall c, (c < nr_cpu_ids)%nat -> cpu_online c k = false ->
                   (r <= c)%nat).
Proof.
  intros Hcfg. split.
  - intros (c0 & Hc0 & Hon0 & Hrate0). cbv zeta. unfold cpu_to_take_down.
    destruct (Nat.ltb_spec 2 CONFIG_NR_CPUS) as [Hbig|Hsmall].
    + exact (get_slowest_cpu_spec e k c0 Hc0 Hon0 Hrate0).
    + assert (c0 = 1%nat) by lia. subst c0.
      split; [lia|]. split; [exact Hon0|].
      intros c Hc _. assert (c = 1%nat) by lia. subst c. split; [lia|auto].
  - intros H0 (c0 & Hc0 & Hoff0). cbv zeta.
    assert (Hc0pos : (0 < c0 < nr_cpu_ids)%nat).
    { destruct c0; [congruence|lia]. }
    destruct (cpu_to_bring_up_spec k c0 Hcfg Hc0pos Hoff0)
      as (Hr & Hoff & Hmin).
    split; [lia|]. split; [exact Hoff|].
    intros c Hc Hoffc. apply Hmin; [|exact Hoffc].
    destruct c; [congruence|lia].
Qed.

(** ** Suspend, resume, enable and disable *)

Lemma asmp_early_suspend_online (e : hw) (k : kernel) (c : nat) :
  cpu_online c (asmp_early_suspend e k)
  = cpu_online c k
    && negb (scroff_single_core (asmp_param k)
             && existsb (Nat.eqb c) hotplug_cpus && hotplug_ok e c).
Proof.
  unfold asmp_early_suspend.
  set (k1 := if scroff_single_core (asmp_param k)
             then fold_left (unplug e) hotplug_cpus k else k).
  assert (H1 : cpu_online c k1
               = cpu_online c k
                 && negb (scroff_single_core (asmp_param k)
                          && existsb (Nat.eqb c) hotplug_cpus
                          && hotplug_ok e c)).
  { unfold k1. destruct (scroff_single_core (asmp_param k)); cbn [andb negb].
    - apply unplug_all_online.
    - now rewrite andb_true_r. }
  destruct (enabled k1); exact H1.
Qed.

Lemma asmp_early_suspend_param (e : hw) (k : kernel) :
  asmp_param (asmp_early_suspend e k) = asmp_param k.
Proof.
  unfold asmp_early_suspend.
  set (k1 := if scroff_single_core (asmp_param k)
             then fold_left (unplug e) hotplug_cpus k else k).
  assert (H1 : asmp_param k1 = asmp_param k).
  { unfold k1. destruct (scroff_single_core (asmp_param k)); [|reflexivity].
    apply unplug_all_control. }
  destruct (enabled k1); exact H1.
Qed.

Lemma asmp_late_resume_online (e : hw) (k : kernel) (c : nat) :
  cpu_online c (asmp_late_resume e k)
  = cpu_online c k
    || (scroff_single_core (asmp_param k)
        && existsb (Nat.eqb c) hotplug_cpus && hotplug_ok e c
        && (c <? nr_cpu_ids)%nat).
Proof.
  unfold asmp_late_resume.
  set (k1 := if scroff_single_core (asmp_param k)
             then fold_left (plug e) hotplug_cpus k else k).
  assert (H1 : cpu_online c k1
               = cpu_online c k
                 || (scroff_single_core (asmp_param k)
                     && existsb (Nat.eqb c) hotplug_cpus && hotplug_ok e c
                     && (c <? nr_cpu_ids)%nat)).
  { unfold k1. destruct (scroff_single_core (asmp_param k)); cbn [andb].
    - apply plug_all_online.
    - now rewrite orb_false_r. }
  destruct (enabled k1); [|exact H1].
  now rewrite (cpu_online_same_mask c _ _ (queue_mask _ _)).
Qed.

(** C4, as the code has it.  With [scroff_single_core] set and a hotplug
    facility that carries out every request, the suspend handler leaves
    unit 0 as the only unit online and the resume handler that follows
    brings every unit of the pool online.  The online set after the round
    trip is the whole pool: it is the set that was online before the
    suspend exactly when every unit was online then. *)
Theorem suspend_resume_full_pool (e1 e2 : hw) (k : kernel) :
  (nr_cpu_ids <= CONFIG_NR_CPUS)%nat ->
  scroff_single_core (asmp_param k) = true ->
  (forall c, hotplug_ok e1 c = true) ->
  (forall c, hotplug_ok e2 c = true) ->
  cpu_online 0 k = true ->
  let ks := asmp_early_suspend e1 k in
  let kr := asmp_late_resume e2 ks in
  (forall c, (c < nr_cpu_ids)%nat -> cpu_online c ks = Nat.eqb c 0)
  /\ (forall c, (c < nr_cpu_ids)%nat -> cpu_online c kr = true)
  /\ ((forall c, (c < nr_cpu_ids)%nat -> cpu_online c kr = cpu_online c k)
      <-> (forall c, (c < nr_cpu_ids)%nat -> cpu_online c k = true)).
Proof.
  intros Hcfg Hsingle Hok1 Hok2 H0. cbv zeta.
  assert (Hs : forall c, (c < nr_cpu_ids)%nat ->
                 cpu_online c (asmp_early_suspend e1 k) = Nat.eqb c 0).
  { intros c Hc. rewrite asmp_early_suspend_online, Hsingle, Hok1.
    destruct c as [|c].
    - rewrite H0, hotplug_cpus_no0. reflexivity.
    - rewrite (hotplug_cpus_cover (S c)) by (assumption || lia).
      cbn. apply andb_false_r. }
  assert (Hr : forall c, (c < nr_cpu_ids)%nat ->
                 cpu_online c (asmp_late_resume e2 (asmp_early_suspend e1 k))
                 = true).
  { intros c Hc.
    rewrite asmp_late_resume_online, asmp_early_suspend_param, Hsingle,
      Hok2, (Hs c Hc).
    destruct c as [|c]; [reflexivity|].
    rewrite (hotplug_cpus_cover (S c)) by (assumption || lia).
    apply Nat.ltb_lt in Hc. rewrite Hc. reflexivity. }
  split; [exact Hs|]. split; [exact Hr|]. split.
  - intros Hsame c Hc. rewrite <- (Hsame c Hc). now apply Hr.
  - intros Hall c Hc. rewrite (Hall c Hc). now apply Hr.
Qed.

(** C6.  After [enabled] is written to false the controller is disabled,
    no tick is pending, and every unit of the pool is online, whatever
    [scroff_single_core] is: the handler asks for every offline unit other
    than unit 0, and unit 0 is online already. *)
Theorem disable_restores_pool (e : hw) (k : kernel) :
  (nr_cpu_ids <= CONFIG_NR_CPUS)%nat ->
  (forall c, (c < nr_cpu_ids)%nat -> cpu_online c k = false ->
             hotplug_ok e c = true) ->
  cpu_online 0 k = true ->
  let k' := disable e k in
  fst (set_enabled e (Some false) k) = 0
  /\ enabled k' = false
  /\ asmp_work k' = None
  /\ asmp_param k' = asmp_param k
  /\ forall c, (c < nr_cpu_ids)%nat -> cpu_online c k' = true.
Proof.
  intros Hcfg Hok H0. cbv zeta. unfold disable, set_enabled, param_set_bool.
  cbn [set_enabled_flag enabled fst snd].
  set (k2 := cancel_delayed_work_sync (set_enabled_flag false k)).
  pose proof (plug_all_control e hotplug_cpus k2) as (Hp & _ & He & _ & Hw).
  split; [reflexivity|]. split; [exact He|]. split; [exact Hw|].
  split; [exact Hp|].
  intros c Hc. rewrite plug_all_online.
  change (cpu_online c k2) with (cpu_online c k).
  destruct (cpu_online c k) eqn:Hon; [reflexivity|].
  rewrite (Hok c Hc Hon).
  destruct c as [|c]; [congruence|].
  rewrite (hotplug_cpus_cover (S c)) by (assumption || lia).
  apply Nat.ltb_lt in Hc. rewrite Hc. reflexivity.
Qed.

(** C9.  Writing true to [enabled] twice in a row leaves the controller
    in the state the first write left it in, every field alike (the
    enabled flag, the online mask and the pending work item among them):
    the second write returns 0 and changes nothing. *)
Theorem enable_idempotent (e1 e2 : hw) (k : kernel) :
  set_enabled e2 (Some true) (enable e1 k) = (0, enable e1 k)
  /\ enable e2 (enable e1 k) = enable e1 k.
Proof.
  assert (H : set_enabled e2 (Some true) (enable e1 k) = (0, enable e1 k)).
  { unfold enable, set_enabled, param_set_bool.
    cbn [set_enabled_flag enabled asmp_param fst snd].
    unfold queue_delayed_work. destruct k as [p c en rq w m l].
    cbn [set_enabled_flag asmp_work asmp_param enabled cycle rq_avg
         cpu_online_mask hotplug_log].
    destruct w; reflexivity. }
  split; [exact H|]. unfold enable at 1. now rewrite H.
Qed.

(** ** More about the tick *)

Lemma bitmap_weight_clear_cpu (m : cpumask) (cpu n : nat) :
  cpumask_test_cpu cpu m = true ->
  (bitmap_weight (cpumask_clear_cpu cpu m) n
   + (if (cpu <? n)%nat then 1 else 0))%nat
  = bitmap_weight m n.
Proof.
  intros Hon. induction n as [|n IH]; [reflexivity|].
  rewrite !bitmap_weight_S, test_clear_cpu.
  destruct (Nat.eqb_spec n cpu) as [->|Hne].
  - rewrite Hon. cbn [andb negb].
    destruct (Nat.ltb_spec cpu cpu); [lia|].
    destruct (Nat.ltb_spec cpu (S cpu)); lia.
  - rewrite andb_true_r.
    destruct (Nat.ltb_spec cpu n), (Nat.ltb_spec cpu (S n)); lia.
Qed.

Lemma cpu_up_count (e : hw) (cpu : nat) (k : kernel) :
  num_online_cpus k <= num_online_cpus (snd (cpu_up e cpu k))
  <= num_online_cpus k + 1.
Proof.
  rewrite cpu_up_eq.
  destruct (hotplug_ok e cpu && (cpu <? nr_cpu_ids)%nat
            && negb (cpu_online cpu k)) eqn:Hgo.
  - apply andb_prop in Hgo. destruct Hgo as (_ & Hoff).
    apply negb_true_iff in Hoff.
    rewrite !num_online_cpus_weight.
    cbn [set_mask log_call cpu_online_mask].
    rewrite bitmap_weight_set_cpu by exact Hoff.
    destruct (cpu <? CONFIG_NR_CPUS)%nat; lia.
  - change (num_online_cpus (log_call (CpuUp cpu) k)) with (num_online_cpus k).
    lia.
Qed.

Lemma cpu_down_count (e : hw) (cpu : nat) (k : kernel) :
  num_online_cpus k - 1 <= num_online_cpus (snd (cpu_down e cpu k))
  <= num_online_cpus k.
Proof.
  rewrite cpu_down_eq.
  destruct (hotplug_ok e cpu && cpu_online cpu k) eqn:Hgo.
  - apply andb_prop in Hgo. destruct Hgo as (_ & Hon).
    rewrite !num_online_cpus_weight.
    cbn [set_mask log_call cpu_online_mask].
    pose proof (bitmap_weight_clear_cpu (cpu_online_mask k) cpu
                  CONFIG_NR_CPUS Hon) as Hw.
    destruct (cpu <? CONFIG_NR_CPUS)%nat; lia.
  - change (num_online_cpus (log_call (CpuDown cpu) k))
      with (num_online_cpus k).
    lia.
Qed.

(** X1.  One tick changes the state of at most one unit and so moves the
    online count by at most one; it never takes the count above
    [max_cpus] nor below [min_cpus]: a count within the two bounds stays
    within them, whatever the load and whatever the hotplug facility
    answers. *)
Theorem tick_keeps_bounds (e : hw) (k : kernel) :
  let k' := asmp_work_fn e k in
  let p := asmp_param k in
  num_online_cpus k - 1 <= num_online_cpus k' <= num_online_cpus k + 1
  /\ (num_online_cpus k <= max_cpus p -> num_online_cpus k' <= max_cpus p)
  /\ (min_cpus p <= num_online_cpus k -> min_cpus p <= num_online_cpus k')
  /\ exists cpu, forall c, c <> cpu -> cpu_online c k' = cpu_online c k.
Proof.
  cbv zeta. destruct (asmp_work_fn_cases e k) as (_ & _ & _ & Hcases).
  destruct Hcases as [(Hup & _ & _ & _ & Hmask)
                     |[(_ & Hdn & _ & _ & _ & Hmask)
                      |(_ & _ & _ & Hmask)]].
  - rewrite (num_online_same_mask _ _ Hmask).
    pose proof (cpu_up_count e (cpu_to_bring_up k) k) as Hcnt.
    unfold up_cond in Hup. apply andb_prop in Hup. destruct Hup as (Hlt & _).
    apply Z.ltb_lt in Hlt.
    split; [lia|]. split; [lia|]. split; [lia|].
    exists (cpu_to_bring_up k). intros c Hc.
    rewrite (cpu_online_same_mask c _ _ Hmask), cpu_up_online.
    destruct (Nat.eqb_spec c (cpu_to_bring_up k)); [contradiction|].
    apply orb_false_r.
  - rewrite (num_online_same_mask _ _ Hmask).
    pose proof (cpu_down_count e (cpu_to_take_down e k) k) as Hcnt.
    unfold down_cond in Hdn. apply andb_prop in Hdn. destruct Hdn as (Hlt & _).
    apply Z.ltb_lt in Hlt.
    split; [lia|]. split; [lia|]. split; [lia|].
    exists (cpu_to_take_down e k). intros c Hc.
    rewrite (cpu_online_same_mask c _ _ Hmask), cpu_down_online.
    destruct (Nat.eqb_spec c (cpu_to_take_down e k)); [contradiction|].
    apply andb_true_r.
  - rewrite (num_online_same_mask _ _ Hmask).
    split; [lia|]. split; [lia|]. split; [lia|].
    exists O. intros c _. exact (cpu_online_same_mask c _ _ Hmask).
Qed.

(** One tick that reads the load [rq], in terms of the state before it. *)
Lemma tick_cases (e : hw) (rq : Z) (k : kernel) :
  let k' := tick e rq k in
  let c := uint (cycle k + 1) in
  let p := asmp_param k in
  let n := num_online_cpus k in
  asmp_param k' = p
  /\ ((up_cond p n rq = true /\ cycle_up p <= c
       /\ cycle k' = 0
       /\ hotplug_log k' = CpuUp (cpu_to_bring_up k) :: hotplug_log k
       /\ cpu_online_mask k'
          = cpu_online_mask (snd (cpu_up e (cpu_to_bring_up k) k)))
      \/ (up_cond p n rq = false /\ down_cond p n rq = true
          /\ cycle_down p <= c
          /\ cycle k' = 0
          /\ hotplug_log k' = CpuDown (cpu_to_take_down e k) :: hotplug_log k
          /\ cpu_online_mask k'
             = cpu_online_mask (snd (cpu_down e (cpu_to_take_down e k) k)))
      \/ ((up_cond p n rq = true /\ c < cycle_up p
           \/ up_cond p n rq = false /\ down_cond p n rq = true
              /\ c < cycle_down p
           \/ up_cond p n rq = false /\ down_cond p n rq = false)
          /\ cycle k' = c
          /\ hotplug_log k' = hotplug_log k
          /\ cpu_online_mask k' = cpu_online_mask k)).
Proof.
  cbv zeta. unfold tick.
  destruct (asmp_work_fn_cases e (set_work None (set_rq_avg rq k)))
    as (Hp & _ & _ & Hcases).
  cbn [set_work set_rq_avg asmp_param cycle rq_avg cpu_online_mask
       hotplug_log] in Hp, Hcases.
  change (num_online_cpus (set_work None (set_rq_avg rq k)))
    with (num_online_cpus k) in Hcases.
  change (cpu_to_bring_up (set_work None (set_rq_avg rq k)))
    with (cpu_to_bring_up k) in Hcases.
  change (cpu_to_take_down e (set_work None (set_rq_avg rq k)))
    with (cpu_to_take_down e k) in Hcases.
  split; [exact Hp|].
  destruct Hcases as [(Hup & Hc & Hcyc & Hlog & Hmask)
                     |[(Hup & Hdn & Hc & Hcyc & Hlog & Hmask)
                      |Hhold]].
  - left. repeat split; try assumption.
    rewrite Hmask, !cpu_up_eq. unfold cpu_online.
    cbn [cpu_online_mask set_work set_rq_avg]. split_ifs; reflexivity.
  - right; left. repeat split; try assumption.
    rewrite Hmask, !cpu_down_eq. unfold cpu_online.
    cbn [cpu_online_mask set_work set_rq_avg]. split_ifs; reflexivity.
  - right; right. exact Hhold.
Qed.

Lemma uint_succ_le (c : Z) : 0 <= c -> 0 <= uint (c + 1) <= c + 1.
Proof.
  intros Hc. unfold uint, UINT_MOD. split.
  - apply Z.mod_pos_bound. lia.
  - apply Z.mod_le; lia.
Qed.

Lemma uint_small (c : Z) : 0 <= c < UINT_MOD -> uint c = c.
Proof. intros Hc. unfold uint. apply Z.mod_small. exact Hc. Qed.

Lemma run_ticks_cons (t : hw * Z) (ts : list (hw * Z)) (k : kernel) :
  run_ticks (t :: ts) k = run_ticks ts (tick (fst t) (snd t) k).
Proof. reflexivity. Qed.

(** Ticks that all come before either threshold can be reached make no
    request. *)
Lemma quiet_run (ts : list (hw * Z)) (k : kernel) (j : Z) :
  0 <= cycle k <= j ->
  j + Z.of_nat (length ts) < cycle_up (asmp_param k) ->
  j + Z.of_nat (length ts) < cycle_down (asmp_param k) ->
  let k' := run_ticks ts k in
  hotplug_log k' = hotplug_log k
  /\ cpu_online_mask k' = cpu_online_mask k
  /\ asmp_param k' = asmp_param k
  /\ 0 <= cycle k' <= j + Z.of_nat (length ts).
Proof.
  cbv zeta. revert k j.
  induction ts as [|t ts IH]; intros k j Hc Hu Hd.
  - cbn. repeat split; lia.
  - rewrite run_ticks_cons. cbn [length] in *.
    rewrite Nat2Z.inj_succ in *.
    pose proof (uint_succ_le (cycle k) ltac:(lia)) as Hs.
    destruct (tick_cases (fst t) (snd t) k) as (Hp & Hcases).
    destruct Hcases as [(_ & Hbad & _)
                       |[(_ & _ & Hbad & _)
                        |(_ & Hcyc & Hlog & Hmask)]]; try lia.
    destruct (IH (tick (fst t) (snd t) k) (j + 1)) as (Hl & Hm & Hq & Hb).
    + rewrite Hcyc. lia.
    + rewrite Hp. lia.
    + rewrite Hp. lia.
    + repeat split; try congruence; lia.
Qed.

(** X2.  Requests are spaced out: after a tick that makes a hotplug
    request, carried out or not, the ticks that follow make none and leave
    the pool alone, whatever loads they read, as long as there are fewer of
    them than each of [cycle_up] and [cycle_down]. *)
Theorem request_spacing (e : hw) (k : kernel) (call : hotplug_call)
    (ts : list (hw * Z)) :
  let k' := asmp_work_fn e k in
  hotplug_log k' = call :: hotplug_log k ->
  Z.of_nat (length ts) < cycle_up (asmp_param k) ->
  Z.of_nat (length ts) < cycle_down (asmp_param k) ->
  hotplug_log (run_ticks ts k') = hotplug_log k'
  /\ cpu_online_mask (run_ticks ts k') = cpu_online_mask k'.
Proof.
  cbv zeta. intros Hcall Hu Hd.
  destruct (asmp_work_fn_cases e k) as (Hp & _ & _ & Hcases).
  assert (Hc0 : cycle (asmp_work_fn e k) = 0).
  { destruct Hcases as [(_ & _ & Hcyc & _)
                       |[(_ & _ & _ & Hcyc & _)
                        |(_ & _ & Hlog & _)]]; try exact Hcyc.
    rewrite Hlog in Hcall. symmetry in Hcall. now apply cons_neq in Hcall. }
  destruct (quiet_run ts (asmp_work_fn e k) 0) as (Hl & Hm & _).
  - rewrite Hc0. lia.
  - rewrite Hp. lia.
  - rewrite Hp. lia.
  - split; assumption.
Qed.

(** ** Hysteresis in general *)

Lemma cpu_up_mask_congr (e : hw) (cpu : nat) (k1 k2 : kernel) :
  cpu_online_mask k1 = cpu_online_mask k2 ->
  cpu_online_mask (snd (cpu_up e cpu k1))
  = cpu_online_mask (snd (cpu_up e cpu k2)).
Proof.
  intros H. rewrite !cpu_up_eq. unfold cpu_online. rewrite H.
  split_ifs; cbn [set_mask log_call cpu_online_mask]; congruence.
Qed.

Lemma cpu_down_mask_congr (e : hw) (cpu : nat) (k1 k2 : kernel) :
  cpu_online_mask k1 = cpu_online_mask k2 ->
  cpu_online_mask (snd (cpu_down e cpu k1))
  = cpu_online_mask (snd (cpu_down e cpu k2)).
Proof.
  intros H. rewrite !cpu_down_eq. unfold cpu_online. rewrite H.
  split_ifs; cbn [set_mask log_call cpu_online_mask]; congruence.
Qed.

Lemma cpu_to_bring_up_congr (k1 k2 : kernel) :
  cpu_online_mask k1 = cpu_online_mask k2 ->
  cpu_to_bring_up k1 = cpu_to_bring_up k2.
Proof. intros H. unfold cpu_to_bring_up. now rewrite H. Qed.

Lemma cpu_to_take_down_congr (e : hw) (k1 k2 : kernel) :
  cpu_online_mask k1 = cpu_online_mask k2 ->
  cpu_to_take_down e k1 = cpu_to_take_down e k2.
Proof.
  intros H. unfold cpu_to_take_down, get_slowest_cpu. now rewrite H.
Qed.

(** Ticks that make no request because the threshold of their branch is
    not reached yet: each of them counts. *)
Lemma counting_run (ts : list (hw * Z)) :
  forall (k : kernel) (j B : Z),
    cycle k = j -> 0 <= j ->
    j + Z.of_nat (length ts) <= B -> B < UINT_MOD ->
    Forall (fun t =>
              let p := asmp_param k in
              let n := num_online_cpus k in
              (up_cond p n (snd t) = true -> B < cycle_up p)
              /\ (up_cond p n (snd t) = false ->
                  down_cond p n (snd t) = true -> B < cycle_down p)) ts ->
    let k' := run_ticks ts k in
    hotplug_log k' = hotplug_log k
    /\ cpu_online_mask k' = cpu_online_mask k
    /\ asmp_param k' = asmp_param k
    /\ cycle k' = j + Z.of_nat (length ts).
Proof.
  cbv zeta.
  induction ts as [|t ts IH]; intros k j B Hc Hj HB HM Hall.
  - cbn. repeat split; lia.
  - rewrite run_ticks_cons. cbn [length] in *.
    rewrite Nat2Z.inj_succ in *.
    inversion Hall as [|? ? (Hu & Hd) Hall']; subst.
    assert (Hs : uint (cycle k + 1) = cycle k + 1).
    { apply uint_small. lia. }
    destruct (tick_cases (fst t) (snd t) k) as (Hp & Hcases).
    rewrite Hs in Hcases.
    destruct Hcases as [(Hup & Hbad & _)
                       |[(Hup & Hdn & Hbad & _)
                        |(_ & Hcyc & Hlog & Hmask)]].
    + specialize (Hu Hup). lia.
    + specialize (Hd Hup Hdn). lia.
    + assert (Hall1 : Forall
                (fun t0 =>
                   let p := asmp_param (tick (fst t) (snd t) k) in
                   let n := num_online_cpus (tick (fst t) (snd t) k) in
                   (up_cond p n (snd t0) = true -> B < cycle_up p)
                   /\ (up_cond p n (snd t0) = false ->
                       down_cond p n (snd t0) = true -> B < cycle_down p))
                ts).
      { cbv zeta. rewrite Hp, (num_online_same_mask _ _ Hmask). exact Hall'. }
      destruct (IH (tick (fst t) (snd t) k) (cycle k + 1) B Hcyc
                  ltac:(lia) ltac:(lia) HM Hall1) as (Hl & Hm & Hq & Hb).
      repeat split; try congruence. rewrite Hb. lia.
Qed.

(** X3.  Hysteresis of the scale-up, for any threshold: with [cycle_up] =
    N, the counter at 0 and fewer units online than [max_cpus], N ticks in
    a row that each read a load of at least [load_limit_up] make one
    request, [cpu_up] of the unit selected, in the last of them; the N-1
    before leave the pool and the request log alone. *)
Theorem hysteresis_up (ts : list (hw * Z)) (e : hw) (l : Z) (k : kernel) :
  let p := asmp_param k in
  cycle k = 0 ->
  Z.of_nat (length ts) + 1 = cycle_up p ->
  cycle_up p < UINT_MOD ->
  num_online_cpus k < max_cpus p ->
  Forall (fun t => load_limit_up p <= snd t) ts ->
  load_limit_up p <= l ->
  let k1 := run_ticks ts k in
  let k2 := tick e l k1 in
  let cpu := cpu_to_bring_up k in
  hotplug_log k1 = hotplug_log k
  /\ cpu_online_mask k1 = cpu_online_mask k
  /\ hotplug_log k2 = CpuUp cpu :: hotplug_log k
  /\ cycle k2 = 0
  /\ cpu_online_mask k2 = cpu_online_mask (snd (cpu_up e cpu k)).
Proof.
  cbv zeta. intros Hc0 Hlen HM Hcap Hloads Hl.
  assert (Hup : forall x, load_limit_up (asmp_param k) <= x ->
                up_cond (asmp_param k) (num_online_cpus k) x = true).
  { intros x Hx. unfold up_cond. apply andb_true_intro. split.
    - apply Z.ltb_lt. exact Hcap.
    - apply Z.leb_le. exact Hx. }
  assert (Hback : Forall
            (fun t =>
               let p := asmp_param k in
               let n := num_online_cpus k in
               (up_cond p n (snd t) = true ->
                Z.of_nat (length ts) < cycle_up p)
               /\ (up_cond p n (snd t) = false ->
                   down_cond p n (snd t) = true ->
                   Z.of_nat (length ts) < cycle_down p)) ts).
  { apply Forall_forall. intros t Ht. rewrite Forall_forall in Hloads.
    cbv zeta. split.
    - intros _. lia.
    - intros Hno. rewrite (Hup _ (Hloads t Ht)) in Hno. discriminate. }
  destruct (counting_run ts k 0 (Z.of_nat (length ts)) Hc0 ltac:(lia)
              ltac:(lia) ltac:(lia) Hback) as (Hl1 & Hm1 & Hp1 & Hc1).
  destruct (tick_cases e l (run_ticks ts k)) as (_ & Hcases).
  rewrite Hp1, (num_online_same_mask _ _ Hm1), Hc1, (Hup l Hl) in Hcases.
  rewrite uint_small in Hcases by lia.
  destruct Hcases as [(_ & _ & Hcyc & Hlog & Hmask)
                     |[(Hbad & _)
                      |([(_ & Hbad)|[(Hbad & _)|(Hbad & _)]] & _)]];
    try discriminate; try lia.
  rewrite (cpu_to_bring_up_congr _ _ Hm1) in Hlog, Hmask.
  rewrite (cpu_up_mask_congr e _ _ _ Hm1) in Hmask.
  repeat split; congruence.
Qed.

(** X4.  Hysteresis of the scale-down, for any threshold: with
    [cycle_down] = N, the counter at 0 and more units online than
    [min_cpus], N ticks in a row that each read a load of at most
    [load_limit_down] and in which no scale-up is due make one request,
    [cpu_down] of the unit selected, in the last of them. *)
Theorem hysteresis_down (ts : list (hw * Z)) (e : hw) (l : Z) (k : kernel) :
  let p := asmp_param k in
  let n := num_online_cpus k in
  cycle k = 0 ->
  Z.of_nat (length ts) + 1 = cycle_down p ->
  cycle_down p < UINT_MOD ->
  min_cpus p < n ->
  Forall (fun t => up_cond p n (snd t) = false
                   /\ snd t <= load_limit_down p) ts ->
  up_cond p n l = false ->
  l <= load_limit_down p ->
  let k1 := run_ticks ts k in
  let k2 := tick e l k1 in
  let cpu := cpu_to_take_down e k in
  hotplug_log k1 = hotplug_log k
  /\ cpu_online_mask k1 = cpu_online_mask k
  /\ hotplug_log k2 = CpuDown cpu :: hotplug_log k
  /\ cycle k2 = 0
  /\ cpu_online_mask k2 = cpu_online_mask (snd (cpu_down e cpu k)).
Proof.
  cbv zeta. intros Hc0 Hlen HM Hfloor Hloads Hnu Hl.
  assert (Hdn : forall x, x <= load_limit_down (asmp_param k) ->
                down_cond (asmp_param k) (num_online_cpus k) x = true).
  { intros x Hx. unfold down_cond. apply andb_true_intro. split.
    - apply Z.ltb_lt. exact Hfloor.
    - apply Z.leb_le. exact Hx. }
  assert (Hback : Forall
            (fun t =>
               let p := asmp_param k in
               let n := num_online_cpus k in
               (up_cond p n (snd t) = true ->
                Z.of_nat (length ts) < cycle_up p)
               /\ (up_cond p n (snd t) = false ->
                   down_cond p n (snd t) = true ->
                   Z.of_nat (length ts) < cycle_down p)) ts).
  { apply Forall_forall. intros t Ht. rewrite Forall_forall in Hloads.
    destruct (Hloads t Ht) as (Hno & _). cbv zeta. split.
    - intros Hyes. rewrite Hno in Hyes. discriminate.
    - intros _ _. lia. }
  destruct (counting_run ts k 0 (Z.of_nat (length ts)) Hc0 ltac:(lia)
              ltac:(lia) ltac:(lia) Hback) as (Hl1 & Hm1 & Hp1 & Hc1).
  destruct (tick_cases e l (run_ticks ts k)) as (_ & Hcases).
  rewrite Hp1, (num_online_same_mask _ _ Hm1), Hc1, Hnu, (Hdn l Hl)
    in Hcases.
  rewrite uint_small in Hcases by lia.
  destruct Hcases as [(Hbad & _)
                     |[(_ & _ & _ & Hcyc & Hlog & Hmask)
                      |([(Hbad & _)|[(_ & _ & Hbad)|(_ & Hbad)]] & _)]];
    try discriminate; try lia.
  rewrite (cpu_to_take_down_congr e _ _ Hm1) in Hlog, Hmask.
  rewrite (cpu_down_mask_congr e _ _ _ Hm1) in Hmask.
  repeat split; congruence.
Qed.

(** X5.  The counter counts ticks, not qualifying ticks: ticks in which
    neither condition holds leave the pool alone and raise the counter by
    one each, and once [cycle_up] - 1 or more of them have passed since the
    last request the first tick that reads a load of at least
    [load_limit_up], with room below [max_cpus], asks for a unit at
    once. *)
Theorem idle_ticks_count (ts : list (hw * Z)) (e : hw) (l : Z) (k : kernel) :
  let p := asmp_param k in
  let n := num_online_cpus k in
  cycle k = 0 ->
  Z.of_nat (length ts) + 1 < UINT_MOD ->
  Forall (fun t => up_cond p n (snd t) = false
                   /\ down_cond p n (snd t) = false) ts ->
  let k1 := run_ticks ts k in
  let k2 := tick e l k1 in
  hotplug_log k1 = hotplug_log k
  /\ cpu_online_mask k1 = cpu_online_mask k
  /\ cycle k1 = Z.of_nat (length ts)
  /\ (up_cond p n l = true -> cycle_up p <= Z.of_nat (length ts) + 1 ->
      hotplug_log k2 = CpuUp (cpu_to_bring_up k) :: hotplug_log k
      /\ cycle k2 = 0).
Proof.
  cbv zeta. intros Hc0 HM Hidle.
  assert (Hback : Forall
            (fun t =>
               let p := asmp_param k in
               let n := num_online_cpus k in
               (up_cond p n (snd t) = true ->
                Z.of_nat (length ts) < cycle_up p)
               /\ (up_cond p n (snd t) = false ->
                   down_cond p n (snd t) = true ->
                   Z.of_nat (length ts) < cycle_down p)) ts).
  { apply Forall_forall. intros t Ht. rewrite Forall_forall in Hidle.
    destruct (Hidle t Ht) as (Hnu & Hnd). cbv zeta. split.
    - intros Hyes. rewrite Hnu in Hyes. discriminate.
    - intros _ Hyes. rewrite Hnd in Hyes. discriminate. }
  destruct (counting_run ts k 0 (Z.of_nat (length ts)) Hc0 ltac:(lia)
              ltac:(lia) ltac:(lia) Hback) as (Hl1 & Hm1 & Hp1 & Hc1).
  split; [exact Hl1|]. split; [exact Hm1|]. split; [lia|].
  intros Hup Hreached.
  destruct (tick_cases e l (run_ticks ts k)) as (_ & Hcases).
  rewrite Hp1, (num_online_same_mask _ _ Hm1), Hc1, Hup in Hcases.
  rewrite uint_small in Hcases by lia.
  destruct Hcases as [(_ & _ & Hcyc & Hlog & _)
                     |[(Hbad & _)
                      |([(_ & Hbad)|[(Hbad & _)|(Hbad & _)]] & _)]];
    try discriminate; try lia.
  rewrite (cpu_to_bring_up_congr _ _ Hm1) in Hlog.
  split; congruence.
Qed.

(** ** Writes of [enabled] and of the tunables *)

Lemma set_enabled_flag_same (k : kernel) : set_enabled_flag (enabled k) k = k.
Proof. destruct k. reflexivity. Qed.

(** X6.  A write of [enabled] that [param_set_bool] rejects still acts:
    [set_enabled] returns the error and leaves the flag alone, and then
    does what a write of the flag's present value does.  On a disabled
    controller it cancels the work and brings up every offline unit the
    hotplug facility lets it. *)
Theorem rejected_write_still_acts (e : hw) (k : kernel) :
  fst (set_enabled e None k) = - EINVAL
  /\ enabled (snd (set_enabled e None k)) = enabled k
  /\ snd (set_enabled e None k)
     = snd (set_enabled e (Some (enabled k)) k)
  /\ (enabled k = false ->
      asmp_work (snd (set_enabled e None k)) = None
      /\ forall c, (nr_cpu_ids <= CONFIG_NR_CPUS)%nat ->
                   (0 < c < nr_cpu_ids)%nat -> hotplug_ok e c = true ->
                   cpu_online c (snd (set_enabled e None k)) = true).
Proof.
  assert (Hsame : set_enabled e None k
                  = (- EINVAL, snd (set_enabled e (Some (enabled k)) k))).
  { unfold set_enabled, param_set_bool. rewrite set_enabled_flag_same.
    destruct (enabled k); reflexivity. }
  rewrite Hsame. cbn [fst snd].
  split; [reflexivity|]. split; [|split; [reflexivity|]].
  - unfold set_enabled, param_set_bool. rewrite set_enabled_flag_same.
    destruct (enabled k) eqn:Hen; cbn [snd].
    + now rewrite queue_enabled.
    + destruct (plug_all_control e hotplug_cpus (cancel_delayed_work_sync k))
        as (_ & _ & He & _). rewrite He. exact Hen.
  - intros Hen. unfold set_enabled, param_set_bool.
    rewrite set_enabled_flag_same, Hen. cbn [snd].
    destruct (plug_all_control e hotplug_cpus (cancel_delayed_work_sync k))
      as (_ & _ & _ & _ & Hw).
    split; [exact Hw|].
    intros c Hcfg Hc Hok. rewrite plug_all_online.
    rewrite (hotplug_cpus_cover c Hcfg Hc), Hok.
    destruct Hc as (_ & Hc). apply Nat.ltb_lt in Hc. rewrite Hc.
    apply orb_true_r.
Qed.

(** X7.  A tunable written through [store_one] reads back through
    [show_one]: as the value written, taken modulo 2^32, for the unsigned
    tunables, and as 0 or 1 for [scroff_single_core], which keeps only
    whether the value was nonzero.  The write returns [count], leaves every
    other tunable and the rest of the controller as they were, and checks
    no relation between tunables; input that does not parse is refused
    with [-EINVAL] and changes nothing. *)
Theorem store_show_round_trip (a : asmp_attr) (v count : Z) (k : kernel) :
  let k' := snd (store_one a (Some v) count k) in
  fst (store_one a (Some v) count k) = count
  /\ show_one a k'
     = match a with
       | a_scroff_single_core => if uint v =? 0 then 0 else 1
       | _ => uint v
       end
  /\ (forall a', a' <> a -> show_one a' k' = show_one a' k)
  /\ (cycle k' = cycle k /\ enabled k' = enabled k
      /\ asmp_work k' = asmp_work k
      /\ cpu_online_mask k' = cpu_online_mask k
      /\ hotplug_log k' = hotplug_log k)
  /\ store_one a None count k = (- EINVAL, k).
Proof.
  cbv zeta. split; [reflexivity|]. split.
  - destruct a; try reflexivity.
    unfold show_one, store_one. cbn. destruct (uint v =? 0); reflexivity.
  - split.
    + intros a' Hne. destruct a, a'; try reflexivity; contradiction.
    + split; [repeat split|reflexivity].
Qed.

(** ** Suspend and resume without [scroff_single_core] *)

(** X8.  With [scroff_single_core] off, suspend and resume make no
    hotplug request and leave the pool and the counter exactly as they
    were.  On an enabled controller the suspend cancels the tick and the
    resume queues it again with the present [delay]; on a disabled one the
    pair changes nothing at all. *)
Theorem suspend_resume_keeps_pool (e1 e2 : hw) (k : kernel) :
  scroff_single_core (asmp_param k) = false ->
  let ks := asmp_early_suspend e1 k in
  let kr := asmp_late_resume e2 ks in
  (cpu_online_mask ks = cpu_online_mask k
   /\ hotplug_log ks = hotplug_log k)
  /\ (cpu_online_mask kr = cpu_online_mask k
      /\ hotplug_log kr = hotplug_log k /\ cycle kr = cycle k)
  /\ (enabled k = true ->
      asmp_work ks = None
      /\ asmp_work kr = Some (delay (asmp_param k)))
  /\ (enabled k = false -> kr = k).
Proof.
  destruct k as [[d sc mx mn lu ld cu cd] c en rq w m l].
  cbn [asmp_param scroff_single_core]. intros ->.
  cbv [asmp_late_resume asmp_early_suspend cancel_delayed_work_sync
       queue_delayed_work set_work].
  cbn [asmp_param scroff_single_core enabled asmp_work cycle rq_avg
       cpu_online_mask hotplug_log delay].
  destruct en;
    cbn [asmp_param scroff_single_core enabled asmp_work cycle rq_avg
         cpu_online_mask hotplug_log delay];
    repeat split; intros; first [discriminate|reflexivity].
Qed.

(** ** What [get_slowest_cpu] reads *)

Lemma slowest_upto_ext (e1 e2 : hw) (m1 m2 : cpumask) (n : nat) :
  (forall c, (0 < c < n)%nat ->
             cpumask_test_cpu c m1 = cpumask_test_cpu c m2) ->
  (forall c, (0 < c < n)%nat -> cpumask_test_cpu c m1 = true ->
             cpufreq_get e1 c = cpufreq_get e2 c) ->
  slowest_upto e1 m1 n = slowest_upto e2 m2 n.
Proof.
  induction n as [|n IH]; intros Hbits Hrates; [reflexivity|].
  rewrite !slowest_upto_S, IH
    by (intros; first [apply Hbits|apply Hrates]; (lia || assumption)).
  destruct n as [|n].
  - unfold slowest_step. cbn [Nat.ltb Nat.leb].
    destruct (cpumask_test_cpu 0 m1), (cpumask_test_cpu 0 m2); reflexivity.
  - rewrite <- (Hbits (S n)) by lia.
    destruct (cpumask_test_cpu (S n) m1) eqn:Hon; [|reflexivity].
    unfold slowest_step. rewrite (Hrates (S n)) by (lia || assumption).
    reflexivity.
Qed.

(** X9.  [get_slowest_cpu] looks at the online units other than unit 0
    and at nothing else: its answer is the same in two pools that agree on
    which of those units are online, under two clock reports that agree on
    the units that are.  The rate of unit 0 and the rates of offline units
    never matter. *)
Theorem slowest_cpu_reads_online_rates (e1 e2 : hw) (k1 k2 : kernel) :
  (forall c, (0 < c < nr_cpu_ids)%nat ->
             cpu_online c k1 = cpu_online c k2) ->
  (forall c, (0 < c < nr_cpu_ids)%nat -> cpu_online c k1 = true ->
             cpufreq_get e1 c = cpufreq_get e2 c) ->
  get_slowest_cpu e1 k1 = get_slowest_cpu e2 k2.
Proof.
  intros Hbits Hrates. rewrite !get_slowest_cpu_upto. f_equal.
  apply slowest_upto_ext; assumption.
Qed.

(** ** The tick and the work queue *)

(** X10.  The tick never looks at [enabled]: it does the same to the
    rest of the state whatever the flag holds, and leaves the flag as it
    was.  It always ends with its work item queued, with the present
    [delay] when the tick ran off the queue, and with [rq_avg] cleared, so
    that only a cancellation stops the ticks. *)
Theorem tick_ignores_enabled (e : hw) (b : bool) (k : kernel) :
  asmp_work_fn e (set_enabled_flag b k)
  = set_enabled_flag b (asmp_work_fn e k)
  /\ asmp_work (asmp_work_fn e k) <> None
  /\ (asmp_work k = None ->
      asmp_work (asmp_work_fn e k) = Some (delay (asmp_param k)))
  /\ rq_avg (asmp_work_fn e k) = 0.
Proof.
  split; [|split; [|split]].
  - rewrite !asmp_work_fn_eq. cbv zeta.
    change (num_online_cpus (set_enabled_flag b k)) with (num_online_cpus k).
    change (cpu_to_bring_up (set_enabled_flag b k)) with (cpu_to_bring_up k).
    change (cpu_to_take_down e (set_enabled_flag b k))
      with (cpu_to_take_down e k).
    cbn [set_enabled_flag asmp_param cycle rq_avg].
    rewrite !cpu_up_eq, !cpu_down_eq. unfold cpu_online, queue_delayed_work.
    destruct k as [p c en rq w m l].
    cbn [set_enabled_flag set_rq_avg set_cycle set_mask set_work log_call
         asmp_param cycle enabled rq_avg asmp_work cpu_online_mask
         hotplug_log].
    repeat (match goal with
            | |- context [if ?c then _ else _] =>
                lazymatch type of c with bool => destruct c eqn:? end
            end;
            cbn [set_enabled_flag set_rq_avg set_cycle set_mask set_work
                 log_call asmp_param cycle enabled rq_avg asmp_work
                 cpu_online_mask hotplug_log]);
      destruct w; reflexivity.
  - destruct (asmp_work_fn_cases e k) as (Hp & _).
    rewrite asmp_work_fn_eq. cbv zeta.
    match goal with
    | |- asmp_work (queue_delayed_work ?d ?x) <> None =>
        unfold queue_delayed_work; destruct (asmp_work x) eqn:Hw;
        [rewrite Hw|]; discriminate
    end.
  - intros Hnone.
    assert (Hq : forall d x, asmp_work x = None ->
                 asmp_work (queue_delayed_work d x) = Some d).
    { intros d x Hx. unfold queue_delayed_work. rewrite Hx. reflexivity. }
    rewrite asmp_work_fn_eq. cbv zeta.
    set (k2 := set_rq_avg 0 (set_cycle (uint (cycle k + 1)) k)).
    assert (Hup : asmp_work (snd (cpu_up e (cpu_to_bring_up k) k2)) = None
                  /\ asmp_param (snd (cpu_up e (cpu_to_bring_up k) k2))
                     = asmp_param k).
    { destruct (cpu_up_control e (cpu_to_bring_up k) k2)
        as (Hp & _ & _ & _ & Hw). rewrite Hp, Hw. split; [exact Hnone|].
      reflexivity. }
    assert (Hdn : asmp_work (snd (cpu_down e (cpu_to_take_down e k) k2)) = None
                  /\ asmp_param (snd (cpu_down e (cpu_to_take_down e k) k2))
                     = asmp_param k).
    { destruct (cpu_down_control e (cpu_to_take_down e k) k2)
        as (Hp & _ & _ & _ & Hw). rewrite Hp, Hw. split; [exact Hnone|].
      reflexivity. }
    destruct Hup as (Hup1 & Hup2). destruct Hdn as (Hdn1 & Hdn2).
    assert (Hk2 : asmp_work k2 = None /\ asmp_param k2 = asmp_param k).
    { split; [exact Hnone|reflexivity]. }
    destruct Hk2 as (Hk21 & Hk22).
    split_ifs; rewrite Hq;
      cbn [set_cycle asmp_param asmp_work]; first [congruence|assumption].
  - apply asmp_work_fn_cases.
Qed.

(** ** The requests of the loops *)

Lemma plug_all_requests (e : hw) (l : list nat) (k : kernel) :
  NoDup l ->
  hotplug_log (fold_left (plug e) l k)
  = rev (map CpuUp (filter (fun c => negb (cpu_online c k)) l))
    ++ hotplug_log k.
Proof.
  revert k. induction l as [|cpu l IH]; intros k Hnd; [reflexivity|].
  inversion Hnd as [|? ? Hnotin Hnd']; subst.
  cbn [fold_left filter]. rewrite (IH _ Hnd').
  assert (Hext : filter (fun c => negb (cpu_online c (plug e k cpu))) l
                 = filter (fun c => negb (cpu_online c k)) l).
  { apply filter_ext_in. intros c Hin. rewrite plug_online.
    destruct (Nat.eqb_spec c cpu) as [->|]; [contradiction|].
    cbn [andb]. now rewrite orb_false_r. }
  rewrite Hext. unfold plug at 1.
  destruct (negb (cpu_online cpu k)).
  - rewrite cpu_up_log. cbn [map rev]. now rewrite <- app_assoc.
  - reflexivity.
Qed.

Lemma unplug_all_requests (e : hw) (l : list nat) (k : kernel) :
  NoDup l ->
  hotplug_log (fold_left (unplug e) l k)
  = rev (map CpuDown (filter (fun c => cpu_online c k) l))
    ++ hotplug_log k.
Proof.
  revert k. induction l as [|cpu l IH]; intros k Hnd; [reflexivity|].
  inversion Hnd as [|? ? Hnotin Hnd']; subst.
  cbn [fold_left filter]. rewrite (IH _ Hnd').
  assert (Hext : filter (fun c => cpu_online c (unplug e k cpu)) l
                 = filter (fun c => cpu_online c k) l).
  { apply filter_ext_in. intros c Hin. rewrite unplug_online.
    destruct (Nat.eqb_spec c cpu) as [->|]; [contradiction|].
    cbn [andb negb]. now rewrite andb_true_r. }
  rewrite Hext. unfold unplug at 1.
  destruct (cpu_online cpu k).
  - rewrite cpu_down_log. cbn [map rev]. now rewrite <- app_assoc.
  - reflexivity.
Qed.

Lemma hotplug_cpus_NoDup : NoDup hotplug_cpus.
Proof.
  unfold hotplug_cpus. destruct (2 <? CONFIG_NR_CPUS)%nat.
  - apply seq_NoDup.
  - constructor; [intros []|constructor].
Qed.

(** X11.  What a write of [enabled] asks of the hotplug facility: a write
    of true asks for nothing; a write of false asks [cpu_up] once for each
    unit from 1 up that is offline when the write arrives, in ascending
    order, and for no unit that is online, whatever answers it gets. *)
Theorem set_enabled_requests (e : hw) (k : kernel) :
  hotplug_log (enable e k) = hotplug_log k
  /\ hotplug_log (disable e k)
     = rev (map CpuUp (filter (fun c => negb (cpu_online c k)) hotplug_cpus))
       ++ hotplug_log k.
Proof.
  split.
  - unfold enable, set_enabled, param_set_bool.
    cbn [set_enabled_flag enabled snd]. now rewrite queue_log.
  - unfold disable, set_enabled, param_set_bool.
    cbn [set_enabled_flag enabled snd].
    now rewrite (plug_all_requests e _ _ hotplug_cpus_NoDup).
Qed.

(** X12.  What suspend and resume ask of the hotplug facility: with
    [scroff_single_core] set, the suspend asks [cpu_down] once for each
    unit from 1 up that is online when it starts, in ascending order and
    without regard to [min_cpus], and the resume asks [cpu_up] once for
    each such unit that is offline, without regard to [max_cpus]; neither
    asks for a unit already in the state wanted. *)
Theorem suspend_resume_requests (e : hw) (k : kernel) :
  scroff_single_core (asmp_param k) = true ->
  hotplug_log (asmp_early_suspend e k)
  = rev (map CpuDown (filter (fun c => cpu_online c k) hotplug_cpus))
    ++ hotplug_log k
  /\ hotplug_log (asmp_late_resume e k)
     = rev (map CpuUp (filter (fun c => negb (cpu_online c k)) hotplug_cpus))
       ++ hotplug_log k.
Proof.
  intros Hon. split.
  - unfold asmp_early_suspend. rewrite Hon.
    rewrite <- (unplug_all_requests e _ _ hotplug_cpus_NoDup).
    destruct (enabled (fold_left (unplug e) hotplug_cpus k)); reflexivity.
  - unfold asmp_late_resume. rewrite Hon.
    rewrite <- (plug_all_requests e _ _ hotplug_cpus_NoDup).
    destruct (enabled (fold_left (plug e) hotplug_cpus k));
      [apply queue_log|reflexivity].
Qed.

(** ** The run-queue timer *)

(** X13.  [rq_work_fn] measures the time between two of its runs: after
    runs at [t1] and then [t2] nanoseconds, the interval recorded is the
    whole milliseconds from [t1] to [t2], whatever was recorded before, as
    long as the clock has not gone back and fewer than 2^32 milliseconds
    have passed; [def_timer_jiffies] is that interval converted, and the
    later time is kept as the next start. *)
Theorem rq_interval_measures (msecs_to_jiffies : Z -> Z) (t1 t2 : Z)
    (r : rq_timer) :
  t1 <= t2 ->
  t2 - t1 < 1000000 * UINT_MOD ->
  let r2 := rq_work_fn msecs_to_jiffies t2 (rq_work_fn msecs_to_jiffies t1 r) in
  def_interval r2 = (t2 - t1) / 1000000
  /\ def_timer_jiffies r2 = msecs_to_jiffies ((t2 - t1) / 1000000)
  /\ def_start_time r2 = t2.
Proof.
  intros Hle Hlt. cbv zeta. unfold rq_work_fn.
  cbn [def_start_time def_interval def_timer_jiffies].
  assert (Hq : uint (do_div (t2 - t1) (1000 * 1000)) = (t2 - t1) / 1000000).
  { unfold do_div, UINT_MOD in *. change (1000 * 1000) with 1000000.
    rewrite (Z.mod_small (t2 - t1)) by lia.
    apply uint_small. unfold UINT_MOD. split.
    - apply Z.div_pos; lia.
    - apply Z.div_lt_upper_bound; lia. }
  rewrite Hq. repeat split.
Qed.

End Autosmp.

(** ** The theorems at work

    A pool of four units, [CONFIG_NR_CPUS] = [nr_cpu_ids] = 4, on a
    32-bit machine; the spec's selection examples on a pool of three. *)

Example scenario_load_30 :
  let k := tick 4 4 ULONG_MAX_32 hw_ok 30 (boot default_param 0 0 1) in
  cpu_online_mask k = 3 /\ num_online_cpus 4 k = 2 /\ cycle k = 0
  /\ hotplug_log k = [CpuUp 1].
Proof. vm_compute. repeat split. Qed.

Example take_down_example :
  get_slowest_cpu 3 ULONG_MAX_32 hw_metric (boot default_param 0 0 3) = 1%nat.
Proof. reflexivity. Qed.

(** Units 2 and 3 report the same rate: the lower id is taken. *)
Example take_down_tie_example :
  get_slowest_cpu 4 ULONG_MAX_32 hw_ok (boot default_param 0 0 13) = 2%nat.
Proof. reflexivity. Qed.

Example bring_up_example :
  cpumask_next_zero 3 0 (cpu_online_mask (boot default_param 0 0 1)) = 1%nat.
Proof. reflexivity. Qed.

(** The search starts from [slow_rate = ULONG_MAX] and compares with [<]:
    a unit that reports exactly that rate is never selected. *)
Example slow_rate_sentinel :
  get_slowest_cpu 4 ULONG_MAX_32 (mk_hw (fun _ => true) (fun _ => ULONG_MAX_32))
                  (boot default_param 0 0 5) = 1%nat.
Proof. reflexivity. Qed.

Lemma unit0_never_offline_witness :
  let k := asmp_init (boot default_param 0 0 1) in
  let k' := run 4 4 ULONG_MAX_32 sample_run k in
  cpu_online 0 k' = true
  /\ 1 <= num_online_cpus 4 k'
  /\ exists new, hotplug_log k' = new ++ hotplug_log k
                 /\ ~ In (CpuDown 0) new.
Proof.
  exact (unit0_never_offline 4 4 ULONG_MAX_32 sample_run
           (asmp_init (boot default_param 0 0 1)) ltac:(lia) eq_refl).
Defined.

(** C2 as stated fails: the pool is {0}, the load 10 lies between the two
    thresholds, neither condition holds, and the tick takes the counter
    from 0 to 1. *)
Lemma dead_band_tick_increments :
  let k := boot default_param 0 10 1 in
  let k' := asmp_work_fn 4 4 ULONG_MAX_32 hw_ok k in
  up_cond (asmp_param k) (num_online_cpus 4 k) (rq_avg k) = false
  /\ down_cond (asmp_param k) (num_online_cpus 4 k) (rq_avg k) = false
  /\ cycle k = 0 /\ cycle k' = 1
  /\ cycle k' <> cycle k.
Proof. vm_compute. repeat split. discriminate. Qed.

Lemma cycle_counts_every_tick_witness :
  let k := boot default_param 0 10 1 in
  let k' := asmp_work_fn 4 4 ULONG_MAX_32 hw_ok k in
  cycle k' = uint (cycle k + 1)
  /\ hotplug_log k' = hotplug_log k
  /\ cpu_online_mask k' = cpu_online_mask k.
Proof.
  cbv zeta.
  pose proof (cycle_counts_every_tick 4 4 ULONG_MAX_32 hw_ok
                (boot default_param 0 10 1)) as (H & _ & _).
  exact (H eq_refl eq_refl).
Defined.

Lemma three_ticks_one_scale_up_witness :
  let k := boot hysteresis_param 0 0 3 in
  let k1 := tick 4 4 ULONG_MAX_32 hw_ok 30 k in
  let k2 := tick 4 4 ULONG_MAX_32 hw_ok 25 k1 in
  let k3 := tick 4 4 ULONG_MAX_32 hw_ok 99 k2 in
  hotplug_log k1 = [] /\ hotplug_log k2 = []
  /\ hotplug_log k3 = [CpuUp 2]
  /\ cpu_online 2 k = false /\ cpu_online 2 k3 = true
  /\ num_online_cpus 4 k3 = num_online_cpus 4 k + 1.
Proof.
  cbv zeta.
  assert (Hl1 : load_limit_up (asmp_param (boot hysteresis_param 0 0 3)) <= 30)
    by (simpl; lia).
  assert (Hl2 : load_limit_up (asmp_param (boot hysteresis_param 0 0 3)) <= 25)
    by (simpl; lia).
  assert (Hl3 : load_limit_up (asmp_param (boot hysteresis_param 0 0 3)) <= 99)
    by (simpl; lia).
  assert (Hoff : exists c0, (0 < c0 < 4)%nat
                            /\ cpu_online c0 (boot hysteresis_param 0 0 3)
                               = false).
  { exists 3%nat. split; [lia|reflexivity]. }
  pose proof (three_ticks_one_scale_up 4 4 ULONG_MAX_32 hw_ok hw_ok hw_ok
                30 25 99 (boot hysteresis_param 0 0 3)
                eq_refl eq_refl eq_refl Hl1 Hl2 Hl3) as H.
  cbv zeta in H.
  destruct H as ((H1 & _) & (H2 & _) & (H3 & _) & H4).
  destruct (H4 (Nat.le_refl 4) Hoff) as (H5 & H6).
  destruct (H6 eq_refl) as (H7 & H8).
  split; [exact H1|]. split; [exact H2|]. split; [exact H3|].
  split; [exact H5|]. split; [exact H7|exact H8].
Defined.

(** C4 as stated fails: units 0 and 1 are online before the suspend, unit
    2 is not, and after the suspend and the resume unit 2 is online. *)
Lemma suspend_resume_not_identity :
  let k := asmp_init (boot default_param 0 0 3) in
  let kr := asmp_late_resume 4 4 hw_ok (asmp_early_suspend 4 4 hw_ok k) in
  scroff_single_core (asmp_param k) = true
  /\ cpu_online_mask k = 3 /\ cpu_online_mask kr = 15
  /\ ~ (forall c, (c < 4)%nat -> cpu_online c kr = cpu_online c k).
Proof.
  cbv zeta. split; [reflexivity|]. split; [reflexivity|].
  split; [reflexivity|]. intros H. specialize (H 2%nat ltac:(lia)).
  vm_compute in H. discriminate.
Qed.

Lemma suspend_resume_full_pool_witness :
  let k := boot default_param 0 0 3 in
  let ks := asmp_early_suspend 4 4 hw_ok k in
  let kr := asmp_late_resume 4 4 hw_ok ks in
  (forall c, (c < 4)%nat -> cpu_online c ks = Nat.eqb c 0)
  /\ (forall c, (c < 4)%nat -> cpu_online c kr = true).
Proof.
  cbv zeta.
  pose proof (suspend_resume_full_pool 4 4 hw_ok hw_ok
                (boot default_param 0 0 3) ltac:(lia) eq_refl
                (fun _ => eq_refl) (fun _ => eq_refl) eq_refl)
    as (Hone & Hall & _).
  split; [exact Hone|exact Hall].
Defined.

Lemma selection_picks_witness :
  cpu_to_take_down 3 3 ULONG_MAX_32 hw_metric (boot default_param 0 0 3)
  = 1%nat
  /\ cpu_to_bring_up 3 (boot default_param 0 0 1) = 1%nat
  /\ (forall c, (0 < c < 3)%nat ->
        cpu_online c (boot default_param 0 0 3) = true ->
        cpufreq_get hw_metric 1 <= cpufreq_get hw_metric c)
  /\ (forall c, (c < 3)%nat ->
        cpu_online c (boot default_param 0 0 1) = false ->
        (1 <= c)%nat).
Proof.
  split; [reflexivity|]. split; [reflexivity|]. split.
  - intros c Hc Hon.
    pose proof (selection_picks 3 3 ULONG_MAX_32 hw_metric
                  (boot default_param 0 0 3) ltac:(lia)) as (H & _).
    assert (Hex : exists c0, (0 < c0 < 3)%nat
                  /\ cpu_online c0 (boot default_param 0 0 3) = true
                  /\ cpufreq_get hw_metric c0 < ULONG_MAX_32).
    { exists 1%nat. split; [lia|]. split; reflexivity. }
    destruct (H Hex) as (_ & _ & Hmin).
    exact (proj1 (Hmin c Hc Hon)).
  - intros c Hc Hoff.
    pose proof (selection_picks 3 3 ULONG_MAX_32 hw_metric
                  (boot default_param 0 0 1) ltac:(lia)) as (_ & H).
    assert (Hex : exists c0, (c0 < 3)%nat
                  /\ cpu_online c0 (boot default_param 0 0 1) = false).
    { exists 1%nat. split; [lia|reflexivity]. }
    destruct (H eq_refl Hex) as (_ & _ & Hmin).
    exact (Hmin c Hc Hoff).
Defined.

Lemma disable_restores_pool_witness :
  let k' := disable 4 4 hw_ok (boot default_param 3 7 5) in
  enabled k' = false /\ asmp_work k' = None
  /\ forall c, (c < 4)%nat -> cpu_online c k' = true.
Proof.
  cbv zeta.
  pose proof (disable_restores_pool 4 4 hw_ok (boot default_param 3 7 5)
                ltac:(lia) (fun _ _ _ => eq_refl) eq_refl)
    as (_ & He & Hw & _ & Hall).
  split; [exact He|]. split; [exact Hw|exact Hall].
Defined.

(** C7 as stated fails: the counter is at 2 with [cycle_up] = 3, the tick
    reads a load of 30 and asks for unit 1, the hotplug facility refuses,
    and the counter is 0 afterwards all the same; the next tick, which
    qualifies as well, asks for nothing. *)
Lemma refused_request_not_retried :
  let k := boot hysteresis_param 2 30 1 in
  let k1 := asmp_work_fn 4 4 ULONG_MAX_32 hw_refuse k in
  let k2 := tick 4 4 ULONG_MAX_32 hw_ok 30 k1 in
  fst (cpu_up 4 hw_refuse 1 k) <> 0
  /\ hotplug_log k1 = [CpuUp 1] /\ cpu_online_mask k1 = 1
  /\ cycle k1 = 0
  /\ up_cond (asmp_param k1) (num_online_cpus 4 k1) 30 = true
  /\ hotplug_log k2 = hotplug_log k1.
Proof. vm_compute. repeat split. discriminate. Qed.

Lemma refusal_resets_cycle_witness :
  let k := boot hysteresis_param 2 30 1 in
  let k1 := asmp_work_fn 4 4 ULONG_MAX_32 hw_refuse k in
  cycle k1 = 0 /\ cpu_online_mask k1 = cpu_online_mask k.
Proof.
  cbv zeta.
  destruct (refusal_resets_cycle 4 4 ULONG_MAX_32 hw_refuse
              (boot hysteresis_param 2 30 1)) as (H & _).
  destruct (H (CpuUp 1) eq_refl) as (Hc & Hm).
  split; [exact Hc|]. apply Hm. reflexivity.
Defined.

(** C8 as stated fails: with unit 0 alone online [get_slowest_cpu] returns
    unit 1, a unit of the pool that is offline, not an error, and with
    [min_cpus] = 0 the tick goes on to ask for unit 1 to be taken down and
    sets the counter to 0; with exactly [min_cpus] = 2 units online it
    returns unit 1 as well. *)
Lemma slowest_cpu_without_candidates :
  let k := boot no_floor_param 0 0 1 in
  let k' := asmp_work_fn 4 4 ULONG_MAX_32 hw_ok k in
  let k2 := boot floor2_param 0 0 3 in
  num_online_cpus 4 k = 1
  /\ get_slowest_cpu 4 ULONG_MAX_32 hw_ok k = 1%nat
  /\ cpu_online 1 k = false
  /\ hotplug_log k' = [CpuDown 1] /\ cycle k' = 0
  /\ num_online_cpus 4 k2 = min_cpus (asmp_param k2)
  /\ get_slowest_cpu 4 ULONG_MAX_32 hw_ok k2 = 1%nat.
Proof. vm_compute. repeat split. Qed.

Lemma take_down_never_fails_witness :
  let k := boot floor2_param 4 0 3 in
  let k' := asmp_work_fn 4 4 ULONG_MAX_32 hw_ok k in
  (get_slowest_cpu 4 ULONG_MAX_32 hw_ok k < 4)%nat
  /\ get_slowest_cpu 4 ULONG_MAX_32 hw_ok (boot default_param 0 0 1) = 1%nat
  /\ cycle k' = uint (cycle k + 1)
  /\ hotplug_log k' = hotplug_log k
  /\ cpu_online_mask k' = cpu_online_mask k.
Proof.
  cbv zeta.
  destruct (take_down_never_fails 4 4 ULONG_MAX_32 hw_ok
              (boot floor2_param 4 0 3)) as (_ & Hin & _ & Hfloor).
  destruct (take_down_never_fails 4 4 ULONG_MAX_32 hw_ok
              (boot default_param 0 0 1)) as (_ & _ & Hdef & _).
  split; [apply Hin; lia|]. split.
  - apply Hdef. intros c Hc.
    destruct c as [|[|[|[|c]]]]; try lia; reflexivity.
  - assert (Hle : num_online_cpus 4 (boot floor2_param 4 0 3)
                  <= min_cpus (asmp_param (boot floor2_param 4 0 3))).
    { vm_compute. discriminate. }
    destruct (Hfloor Hle) as (_ & Hhold).
    apply Hhold. reflexivity.
Defined.

Lemma scale_up_has_priority_witness :
  let k := boot inverted_param 0 15 3 in
  let k' := asmp_work_fn 4 4 ULONG_MAX_32 hw_metric k in
  (hotplug_log k' = hotplug_log k
   \/ hotplug_log k' = CpuUp (cpu_to_bring_up 4 k) :: hotplug_log k)
  /\ (forall c, hotplug_log k' <> CpuDown c :: hotplug_log k)
  /\ (forall c, cpu_online c k = true -> cpu_online c k' = true).
Proof.
  cbv zeta.
  exact (scale_up_has_priority 4 4 ULONG_MAX_32 hw_metric
           (boot inverted_param 0 15 3) eq_refl eq_refl).
Defined.

(** ** The further theorems at work *)

(** Settles a comparison of two numbers by evaluating it. *)
Ltac by_evaluation :=
  vm_compute;
  first [reflexivity | discriminate
        | split; first [reflexivity | discriminate]].

Lemma tick_keeps_bounds_witness :
  let k := boot default_param 0 30 1 in
  let k' := asmp_work_fn 4 4 ULONG_MAX_32 hw_ok k in
  num_online_cpus 4 k' <= max_cpus (asmp_param k)
  /\ min_cpus (asmp_param k) <= num_online_cpus 4 k'.
Proof.
  cbv zeta.
  pose proof (tick_keeps_bounds 4 4 ULONG_MAX_32 hw_ok
                (boot default_param 0 30 1)) as (_ & Hmax & Hmin & _).
  split; [apply Hmax|apply Hmin]; by_evaluation.
Defined.

Lemma request_spacing_witness :
  let k' :=
    asmp_work_fn 4 4 ULONG_MAX_32 hw_ok (boot hysteresis_param 2 30 1) in
  hotplug_log k' = [CpuUp 1]
  /\ hotplug_log (run_ticks 4 4 ULONG_MAX_32 any_ticks k') = hotplug_log k'
  /\ cpu_online_mask (run_ticks 4 4 ULONG_MAX_32 any_ticks k')
     = cpu_online_mask k'.
Proof.
  cbv zeta. split; [reflexivity|].
  exact (request_spacing 4 4 ULONG_MAX_32 hw_ok (boot hysteresis_param 2 30 1)
           (CpuUp 1) any_ticks eq_refl eq_refl eq_refl).
Defined.

Lemma hysteresis_up_witness :
  let k := boot up4_param 0 0 1 in
  let k1 := run_ticks 4 4 ULONG_MAX_32 busy_ticks k in
  let k2 := tick 4 4 ULONG_MAX_32 hw_ok 26 k1 in
  hotplug_log k1 = [] /\ hotplug_log k2 = [CpuUp 1] /\ cycle k2 = 0.
Proof.
  cbv zeta.
  assert (Hloads : Forall (fun t => load_limit_up up4_param <= snd t)
                          busy_ticks).
  { repeat constructor; by_evaluation. }
  assert (Hl : load_limit_up up4_param <= 26) by by_evaluation.
  pose proof (hysteresis_up 4 4 ULONG_MAX_32 busy_ticks hw_ok 26
                (boot up4_param 0 0 1) eq_refl eq_refl eq_refl eq_refl
                Hloads Hl) as (H1 & _ & H2 & H3 & _).
  split; [exact H1|]. split; [exact H2|exact H3].
Defined.

Lemma hysteresis_down_witness :
  let k := boot down2_param 0 0 7 in
  let k1 := run_ticks 4 4 ULONG_MAX_32 calm_ticks k in
  let k2 := tick 4 4 ULONG_MAX_32 hw_metric 0 k1 in
  hotplug_log k1 = [] /\ hotplug_log k2 = [CpuDown 1] /\ cycle k2 = 0.
Proof.
  cbv zeta.
  assert (Hloads : Forall
            (fun t => up_cond down2_param
                        (num_online_cpus 4 (boot down2_param 0 0 7)) (snd t)
                      = false
                      /\ snd t <= load_limit_down down2_param) calm_ticks).
  { repeat constructor; by_evaluation. }
  assert (Hl : 0 <= load_limit_down down2_param) by by_evaluation.
  pose proof (hysteresis_down 4 4 ULONG_MAX_32 calm_ticks hw_metric 0
                (boot down2_param 0 0 7) eq_refl eq_refl eq_refl eq_refl
                Hloads eq_refl Hl) as (H1 & _ & H2 & H3 & _).
  split; [exact H1|]. split; [exact H2|exact H3].
Defined.

Lemma idle_ticks_count_witness :
  let k := boot hysteresis_param 0 0 1 in
  let k1 := run_ticks 4 4 ULONG_MAX_32 idle_ticks k in
  let k2 := tick 4 4 ULONG_MAX_32 hw_ok 30 k1 in
  cycle k1 = 2 /\ hotplug_log k2 = [CpuUp 1] /\ cycle k2 = 0.
Proof.
  cbv zeta.
  assert (Hidle : Forall
            (fun t => up_cond hysteresis_param
                        (num_online_cpus 4 (boot hysteresis_param 0 0 1))
                        (snd t) = false
                      /\ down_cond hysteresis_param
                           (num_online_cpus 4 (boot hysteresis_param 0 0 1))
                           (snd t) = false) idle_ticks).
  { repeat constructor. }
  pose proof (idle_ticks_count 4 4 ULONG_MAX_32 idle_ticks hw_ok 30
                (boot hysteresis_param 0 0 1) eq_refl eq_refl Hidle)
    as (_ & _ & H1 & H2).
  split; [exact H1|]. apply H2; by_evaluation.
Defined.

Lemma rejected_write_still_acts_witness :
  let k := set_enabled_flag false (boot default_param 0 0 1) in
  let k' := snd (set_enabled 4 4 hw_ok None k) in
  asmp_work k' = None /\ cpu_online 3 k' = true.
Proof.
  cbv zeta.
  pose proof (rejected_write_still_acts 4 4 hw_ok
                (set_enabled_flag false (boot default_param 0 0 1)))
    as (_ & _ & _ & H).
  destruct (H eq_refl) as (Hw & Hall).
  split; [exact Hw|]. apply Hall; [lia|lia|reflexivity].
Defined.

Lemma suspend_resume_keeps_pool_witness :
  let k := boot no_scroff_param 2 9 7 in
  let ks := asmp_early_suspend 4 4 hw_ok k in
  let kr := asmp_late_resume 4 4 hw_ok ks in
  cpu_online_mask kr = 7 /\ hotplug_log kr = [] /\ cycle kr = 2
  /\ asmp_work ks = None /\ asmp_work kr = Some 100.
Proof.
  cbv zeta.
  pose proof (suspend_resume_keeps_pool 4 4 hw_ok hw_ok
                (boot no_scroff_param 2 9 7) eq_refl)
    as (_ & (Hm & Hl & Hc) & Hen & _).
  destruct (Hen eq_refl) as (Hs & Hr).
  repeat split; assumption.
Defined.

Lemma slowest_cpu_reads_online_rates_witness :
  get_slowest_cpu 4 ULONG_MAX_32 hw_metric (boot default_param 0 0 5)
  = get_slowest_cpu 4 ULONG_MAX_32 hw_other (boot no_floor_param 3 1 5).
Proof.
  apply (slowest_cpu_reads_online_rates 4 ULONG_MAX_32 hw_metric hw_other).
  - intros c Hc. reflexivity.
  - intros c Hc Hon.
    destruct c as [|[|[|[|c]]]]; try lia; try discriminate Hon; reflexivity.
Defined.

Lemma tick_ignores_enabled_witness :
  let k := boot default_param 0 30 1 in
  asmp_work (asmp_work_fn 4 4 ULONG_MAX_32 hw_ok k) = Some 100.
Proof.
  cbv zeta.
  pose proof (tick_ignores_enabled 4 4 ULONG_MAX_32 hw_ok true
                (boot default_param 0 30 1)) as (_ & _ & H & _).
  exact (H eq_refl).
Defined.

Lemma suspend_resume_requests_witness :
  let k := boot default_param 0 0 5 in
  hotplug_log (asmp_early_suspend 4 4 hw_ok k) = [CpuDown 2]
  /\ hotplug_log (asmp_late_resume 4 4 hw_refuse k) = [CpuUp 3; CpuUp 1].
Proof.
  cbv zeta. split.
  - exact (proj1 (suspend_resume_requests 4 4 hw_ok
                    (boot default_param 0 0 5) eq_refl)).
  - exact (proj2 (suspend_resume_requests 4 4 hw_refuse
                    (boot default_param 0 0 5) eq_refl)).
Defined.

Lemma rq_interval_measures_witness :
  let r := mk_rq_timer 0 0 0 in
  let f := fun ms => ms / 10 in
  def_interval (rq_work_fn f 12500000 (rq_work_fn f 5000000 r)) = 7.
Proof.
  cbv zeta.
  assert (H1 : 5000000 <= 12500000) by by_evaluation.
  assert (H2 : 12500000 - 5000000 < 1000000 * UINT_MOD) by by_evaluation.
  exact (proj1 (rq_interval_measures (fun ms => ms / 10) 5000000 12500000
                  (mk_rq_timer 0 0 0) H1 H2)).
Defined.

(** * Facts about the thermal LED trigger *)

Module ThermalFacts.
Import Thermal.

Section Facts.

Variable HZ : Z.
Variable ULONG_MAX : Z.

(** [long] is narrow enough for a tenth of an [unsigned long] to fit an
    [int]: 32 bits, as on the ARM machines the driver is for. *)
Hypothesis long_fits : 0 <= ULONG_MAX < 10 * 2 ^ 31.

Local Abbreviation br_of_temp := (Thermal.br_of_temp ULONG_MAX).
Local Abbreviation check_temp := (Thermal.check_temp HZ ULONG_MAX).
Local Abbreviation reschedule := (Thermal.reschedule HZ).
Local Abbreviation checks := (Thermal.checks HZ ULONG_MAX).
Local Abbreviation run := (Thermal.run HZ ULONG_MAX).
Local Abbreviation step := (Thermal.step HZ ULONG_MAX).
Local Abbreviation thermal_trig_init := (Thermal.thermal_trig_init HZ).
Local Abbreviation thermal_trig_late_resume :=
  (Thermal.thermal_trig_late_resume HZ).
Local Abbreviation DELAY_OFF := (Thermal.DELAY_OFF HZ).
Local Abbreviation DELAY_ON := (Thermal.DELAY_ON HZ).

Lemma clamp_range (b : Z) : LED_OFF <= clamp b <= LED_FULL.
Proof.
  unfold clamp, LED_OFF, LED_FULL.
  destruct (Z.ltb_spec b 0); [lia|].
  destruct (Z.ltb_spec 255 b); lia.
Qed.

Lemma schedule_keeps (d : Z) (s : state) :
  delay (schedule_delayed_work d s) = delay s
  /\ brightness (schedule_delayed_work d s) = brightness s
  /\ active (schedule_delayed_work d s) = active s
  /\ led_log (schedule_delayed_work d s) = led_log s.
Proof.
  unfold schedule_delayed_work. destruct (check_temp_work s); repeat split.
Qed.

Lemma reschedule_keeps (s : state) :
  brightness (reschedule s) = brightness s
  /\ active (reschedule s) = active s
  /\ led_log (reschedule s) = led_log s
  /\ delay (reschedule s)
     = if brightness s =? LED_OFF then DELAY_OFF else DELAY_ON.
Proof.
  unfold Thermal.reschedule. cbv zeta.
  match goal with
  | |- context [schedule_delayed_work ?d ?x] =>
      destruct (schedule_keeps d x) as (Hd & Hb & Ha & Hl)
  end.
  rewrite Hd, Hb, Ha, Hl. repeat split.
Qed.

Lemma reschedule_work (s : state) :
  check_temp_work s = None ->
  check_temp_work (reschedule s) = Some (delay (reschedule s)).
Proof.
  intros Hnone. destruct (reschedule_keeps s) as (_ & _ & _ & Hd).
  rewrite Hd. unfold Thermal.reschedule, schedule_delayed_work. cbv zeta.
  cbn [set_delay check_temp_work]. rewrite Hnone. reflexivity.
Qed.

(** What a successful reading does to the brightness and the LED. *)
Lemma check_temp_ok (r : tsens) (s : state) :
  ret r = 0 ->
  let b := clamp (smooth (br_of_temp (temp r)) (brightness s)) in
  brightness (check_temp r s) = b
  /\ led_log (check_temp r s) = TriggerEvent b :: led_log s
  /\ active (check_temp r s) = active s.
Proof.
  intros Hret. cbv zeta. unfold Thermal.check_temp. rewrite Hret.
  cbn [Z.eqb negb]. cbv zeta.
  match goal with
  | |- context [Thermal.reschedule HZ ?x] =>
      destruct (reschedule_keeps x) as (Hb & Ha & Hl & _)
  end.
  rewrite Hb, Ha, Hl. repeat split.
Qed.

Lemma check_temp_failed (r : tsens) (s : state) :
  ret r <> 0 -> check_temp r s = reschedule s.
Proof.
  intros Hret. unfold Thermal.check_temp.
  destruct (Z.eqb_spec (ret r) 0); [contradiction|reflexivity].
Qed.

Lemma in_range_refl (s : state) :
  LED_OFF <= brightness s <= LED_FULL -> in_range s s.
Proof.
  intros H. split; [exact H|]. exists []. split; [reflexivity|constructor].
Qed.

Lemma in_range_trans (s0 s1 s2 : state) :
  in_range s0 s1 -> in_range s1 s2 -> in_range s0 s2.
Proof.
  intros (_ & n1 & H1 & F1) (Hb & n2 & H2 & F2).
  split; [exact Hb|]. exists (n2 ++ n1). split.
  - rewrite H2, H1. apply app_assoc.
  - apply Forall_app. split; assumption.
Qed.

Lemma in_range_same (s s' : state) :
  LED_OFF <= brightness s <= LED_FULL ->
  brightness s' = brightness s -> led_log s' = led_log s -> in_range s s'.
Proof.
  intros H Hb Hl. split; [rewrite Hb; exact H|].
  exists []. split; [exact Hl|constructor].
Qed.

Lemma in_range_one (s s' : state) (c : led_call) :
  LED_OFF <= brightness s' <= LED_FULL ->
  led_log s' = c :: led_log s -> led_ok c -> in_range s s'.
Proof.
  intros Hb Hl Hc. split; [exact Hb|].
  exists [c]. split; [exact Hl|]. constructor; [exact Hc|constructor].
Qed.

Lemma check_temp_in_range (r : tsens) (s : state) :
  LED_OFF <= brightness s <= LED_FULL -> in_range s (check_temp r s).
Proof.
  intros H. destruct (Z.eq_dec (ret r) 0) as [Hret|Hret].
  - destruct (check_temp_ok r s Hret) as (Hb & Hl & _).
    pose proof (clamp_range (smooth (br_of_temp (temp r)) (brightness s)))
      as Hc.
    eapply in_range_one; [rewrite Hb; exact Hc|exact Hl|exact Hc].
  - rewrite (check_temp_failed r s Hret).
    destruct (reschedule_keeps s) as (Hb & _ & Hl & _).
    now apply in_range_same.
Qed.

Lemma step_in_range (s : state) (ev : event) :
  LED_OFF <= brightness s <= LED_FULL -> in_range s (step s ev).
Proof.
  intros H. destruct ev as [| |r| |]; cbn [Thermal.step].
  - unfold Thermal.thermal_trig_activate.
    destruct (schedule_keeps DELAY_OFF (set_delay DELAY_OFF s))
      as (_ & Hb & _ & Hl).
    apply in_range_same; [exact H| |];
      cbn [set_active brightness led_log]; [rewrite Hb|rewrite Hl];
      reflexivity.
  - unfold Thermal.thermal_trig_deactivate.
    eapply in_range_one; [exact H|reflexivity|].
    cbn. unfold LED_OFF, LED_FULL. lia.
  - unfold Thermal.run_check_temp. destruct (check_temp_work s).
    + apply (check_temp_in_range r (set_work None s)). exact H.
    + now apply in_range_refl.
  - unfold Thermal.thermal_trig_early_suspend.
    destruct (active s); cbn [negb]; [|now apply in_range_refl].
    cbv zeta. destruct (brightness (cancel_delayed_work s) =? 0);
      cbn [negb].
    + now apply in_range_same.
    + eapply in_range_one; [exact H|reflexivity|].
      cbn. unfold LED_OFF, LED_FULL. lia.
  - unfold Thermal.thermal_trig_late_resume.
    destruct (active s); cbn [negb]; [|now apply in_range_refl].
    cbv zeta.
    match goal with
    | |- context [schedule_delayed_work ?d ?x] =>
        destruct (schedule_keeps d x) as (_ & Hb & _ & Hl)
    end.
    apply in_range_same; [exact H|rewrite Hb|rewrite Hl]; reflexivity.
Qed.

Lemma run_in_range (evs : list event) (s : state) :
  LED_OFF <= brightness s <= LED_FULL -> in_range s (run evs s).
Proof.
  revert s. induction evs as [|ev evs IH]; intros s H;
    cbn [Thermal.run fold_left].
  - now apply in_range_refl.
  - pose proof (step_in_range s ev H) as H1.
    eapply in_range_trans; [exact H1|]. apply IH. apply H1.
Qed.

(** X14.  From its initialisation on, whatever is activated, suspended or
    read from the sensor, the trigger's brightness stays between [LED_OFF]
    and [LED_FULL], and every brightness it hands to the LED core does. *)
Theorem brightness_in_range (evs : list event) (s0 : state) :
  let s := run evs (thermal_trig_init s0) in
  LED_OFF <= brightness s <= LED_FULL
  /\ exists new, led_log s = new ++ led_log s0 /\ Forall led_ok new.
Proof.
  cbv zeta.
  apply (run_in_range evs (thermal_trig_init s0)).
  cbn. unfold LED_OFF, LED_FULL. lia.
Qed.

Lemma to_int_small (z : Z) : 0 <= z < 2 ^ 31 -> to_int z = z.
Proof.
  intros Hz. unfold to_int. rewrite Z.mod_small; lia.
Qed.

Lemma br_of_temp_range (t : Z) : 0 <= br_of_temp t <= INT_MAX.
Proof.
  unfold Thermal.br_of_temp, INT_MAX.
  destruct (LOW_TEMP <? t); [|lia].
  unfold Thermal.ulong, HIGH_TEMP, LOW_TEMP.
  change (62 - 52) with 10.
  set (x := LED_FULL * (t - 52)).
  pose proof (Z.mod_pos_bound x (ULONG_MAX + 1) ltac:(lia)) as Hm.
  assert (Hq : 0 <= (x mod (ULONG_MAX + 1)) / 10 < 2 ^ 31).
  { split.
    - apply Z.div_pos; lia.
    - apply Z.div_lt_upper_bound; lia. }
  rewrite to_int_small by exact Hq. lia.
Qed.

(** X15.  Where [long] has 32 bits no step of [check_temp] leaves the
    range of [int]: for every temperature the sensor can report the value
    [br] lies between 0 and [INT_MAX], and with the brightness in range
    the difference [br - brightness] and the brightness before clamping
    do. *)
Theorem check_temp_no_overflow (t b : Z) :
  LED_OFF <= b <= LED_FULL ->
  let br := br_of_temp t in
  0 <= br <= INT_MAX
  /\ - INT_MAX <= br - b <= INT_MAX
  /\ - INT_MAX <= smooth br b <= INT_MAX.
Proof.
  intros Hb. cbv zeta. pose proof (br_of_temp_range t) as Hbr.
  unfold LED_OFF, LED_FULL, INT_MAX in *.
  split; [exact Hbr|]. split; [lia|].
  unfold smooth, step_towards. cbv zeta.
  repeat match goal with
         | |- context [if ?c then _ else _] => destruct c
         end; lia.
Qed.

(** X16.  When the sensor cannot be read, [check_temp] leaves the
    brightness as it was, makes no call to the LED core, and still queues
    itself again, after [DELAY_OFF] when the LED is off and [DELAY_ON]
    otherwise. *)
Theorem sensor_failure_keeps_brightness (r : tsens) (s : state) :
  ret r <> 0 ->
  let s' := check_temp r s in
  brightness s' = brightness s
  /\ led_log s' = led_log s
  /\ delay s' = (if brightness s =? LED_OFF then DELAY_OFF else DELAY_ON)
  /\ (check_temp_work s = None -> check_temp_work s' = Some (delay s')).
Proof.
  intros Hret. cbv zeta. rewrite (check_temp_failed r s Hret).
  destruct (reschedule_keeps s) as (Hb & _ & Hl & Hd).
  split; [exact Hb|]. split; [exact Hl|]. split; [exact Hd|].
  apply reschedule_work.
Qed.

(** The ramp on numbers: towards the clamped value of [br], by at least
    one while more than one away. *)
Lemma ramp_approaches (br b : Z) :
  0 <= br -> LED_OFF <= b <= LED_FULL ->
  let T := Z.min br LED_FULL in
  let b' := clamp (smooth br b) in
  Z.abs (T - b') <= Z.max (Z.abs (T - b) - 1) 1
  /\ (Z.abs (br - b) <= 120 -> Z.abs (b' - b) <= 10)
  /\ (120 < Z.abs (br - b) -> b' = T).
Proof.
  intros Hbr Hb. cbv zeta.
  unfold smooth, step_towards, LED_OFF, LED_FULL in *. cbv zeta.
  repeat match goal with
         | |- context [Z.ltb ?x ?y] => destruct (Z.ltb_spec x y)
         end;
    unfold clamp, LED_OFF, LED_FULL;
    repeat match goal with
           | |- context [Z.ltb ?x ?y] => destruct (Z.ltb_spec x y)
           end; lia.
Qed.

(** X17.  A successful reading moves the brightness towards the value
    for the temperature, clamped to [LED_FULL]: at once when the two are
    more than 120 apart, and otherwise by a step of at most 10 that brings
    it closer by at least one while it is more than one away. *)
Theorem check_temp_approaches (r : tsens) (s : state) :
  ret r = 0 ->
  LED_OFF <= brightness s <= LED_FULL ->
  let br := br_of_temp (temp r) in
  let T := Z.min br LED_FULL in
  let b := brightness s in
  let b' := brightness (check_temp r s) in
  Z.abs (T - b') <= Z.max (Z.abs (T - b) - 1) 1
  /\ (Z.abs (br - b) <= 120 -> Z.abs (b' - b) <= 10)
  /\ (120 < Z.abs (br - b) -> b' = T).
Proof.
  intros Hret Hb. cbv zeta.
  destruct (check_temp_ok r s Hret) as (Hb' & _). rewrite Hb'.
  apply ramp_approaches; [apply br_of_temp_range|exact Hb].
Qed.

Lemma checks_range (n : nat) (r : tsens) (s : state) :
  LED_OFF <= brightness s <= LED_FULL ->
  LED_OFF <= brightness (checks n r s) <= LED_FULL.
Proof.
  revert s. induction n as [|n IH]; intros s H; [exact H|].
  cbn [Thermal.checks]. apply IH. apply (check_temp_in_range r s H).
Qed.

(** X18.  At a steady temperature the brightness settles: after [n]
    successful readings of the same temperature it is within
    [max (d - n) 1] of the clamped value for that temperature, where [d] is
    the distance it started at, and so within 1 of it after 254 readings
    whatever it started from. *)
Theorem brightness_settles (n : nat) (r : tsens) (s : state) :
  ret r = 0 ->
  LED_OFF <= brightness s <= LED_FULL ->
  let T := Z.min (br_of_temp (temp r)) LED_FULL in
  Z.abs (T - brightness (checks n r s))
  <= Z.max (Z.abs (T - brightness s) - Z.of_nat n) 1
  /\ ((254 <= n)%nat -> Z.abs (T - brightness (checks n r s)) <= 1).
Proof.
  intros Hret Hb. cbv zeta.
  assert (Hmain : forall m s1,
             LED_OFF <= brightness s1 <= LED_FULL ->
             Z.abs (Z.min (br_of_temp (temp r)) LED_FULL
                    - brightness (checks m r s1))
             <= Z.max (Z.abs (Z.min (br_of_temp (temp r)) LED_FULL
                              - brightness s1) - Z.of_nat m) 1).
  { induction m as [|m IH]; intros s1 H1.
    - cbn [Thermal.checks]. lia.
    - cbn [Thermal.checks]. rewrite Nat2Z.inj_succ.
      pose proof (check_temp_in_range r s1 H1) as (H2 & _).
      specialize (IH (check_temp r s1) H2).
      destruct (check_temp_ok r s1 Hret) as (Hb' & _).
      pose proof (ramp_approaches (br_of_temp (temp r)) (brightness s1)
                    (proj1 (br_of_temp_range (temp r))) H1) as (Hstep & _).
      cbv zeta in Hstep. rewrite <- Hb' in Hstep. lia. }
  split; [apply Hmain; exact Hb|].
  intros Hn. specialize (Hmain n s Hb).
  pose proof (br_of_temp_range (temp r)) as Hbr.
  unfold LED_OFF, LED_FULL in *. lia.
Qed.

Lemma ramp_at_rest (br : Z) :
  0 < br <= LED_FULL ->
  clamp (smooth br br) = br - 1 /\ clamp (smooth br (br - 1)) = br.
Proof.
  intros Hbr. unfold smooth, step_towards, LED_FULL in *. cbv zeta.
  split;
    repeat match goal with
           | |- context [Z.ltb ?x ?y] => destruct (Z.ltb_spec x y)
           end;
    unfold clamp, LED_OFF, LED_FULL;
    repeat match goal with
           | |- context [Z.ltb ?x ?y] => destruct (Z.ltb_spec x y)
           end; lia.
Qed.

Lemma ramp_rests (br b : Z) :
  0 <= br -> LED_OFF <= b <= LED_FULL ->
  clamp (smooth br b) = b
  <-> (b = LED_OFF /\ br = 0) \/ (b = LED_FULL /\ LED_FULL < br).
Proof.
  intros Hbr Hb.
  unfold smooth, step_towards, LED_OFF, LED_FULL in *. cbv zeta.
  repeat match goal with
         | |- context [Z.ltb ?x ?y] => destruct (Z.ltb_spec x y)
         end;
    unfold clamp, LED_OFF, LED_FULL;
    repeat match goal with
           | |- context [Z.ltb ?x ?y] => destruct (Z.ltb_spec x y)
           end; lia.
Qed.

Lemma br_of_temp_exact (t : Z) :
  LOW_TEMP < t -> LED_FULL * (t - LOW_TEMP) <= ULONG_MAX ->
  br_of_temp t = LED_FULL * (t - LOW_TEMP) / 10.
Proof.
  intros Ht Hfit. unfold Thermal.br_of_temp.
  destruct (Z.ltb_spec LOW_TEMP t); [|lia].
  unfold Thermal.ulong, HIGH_TEMP, LOW_TEMP, LED_FULL in *.
  change (62 - 52) with 10.
  rewrite Z.mod_small by lia.
  apply to_int_small. split.
  - apply Z.div_pos; lia.
  - apply Z.div_lt_upper_bound; lia.
Qed.

(** X19.  Where the brightness rests.  A successful reading leaves a
    brightness in range as it was in two cases only, in which the clamp
    undoes the step: the brightness is [LED_OFF] and the value for the
    temperature is 0, or the brightness is [LED_FULL] and the value is
    above [LED_FULL], which it is exactly for the temperatures above
    [HIGH_TEMP] where the product does not wrap.  The brightness does not
    rest on a value from 1 to [LED_FULL]: when the two are equal the next
    successful reading takes the brightness one down, and the one after
    brings it back, so that at a steady temperature it alternates between
    the two values for good. *)
Theorem brightness_alternates (n : nat) (r : tsens) (s : state) :
  ret r = 0 ->
  LED_OFF <= brightness s <= LED_FULL ->
  let br := br_of_temp (temp r) in
  (brightness (check_temp r s) = brightness s
   <-> (brightness s = LED_OFF /\ br = 0)
       \/ (brightness s = LED_FULL /\ LED_FULL < br))
  /\ (LED_FULL * (temp r - LOW_TEMP) <= ULONG_MAX ->
      (LED_FULL < br <-> HIGH_TEMP < temp r))
  /\ (brightness s = br ->
      brightness (checks n r s)
      = if (br =? 0) || Nat.even n then br else br - 1).
Proof.
  intros Hret Hin. cbv zeta.
  pose proof (br_of_temp_range (temp r)) as (Hpos & _).
  split; [|split].
  - destruct (check_temp_ok r s Hret) as (Hb & _). rewrite Hb.
    apply ramp_rests; assumption.
  - intros Hfit.
    destruct (Z.le_gt_cases (temp r) LOW_TEMP) as [Hlow|Hhigh].
    + unfold Thermal.br_of_temp.
      destruct (Z.ltb_spec LOW_TEMP (temp r)); [lia|].
      unfold LED_FULL, HIGH_TEMP, LOW_TEMP in *. lia.
    + rewrite (br_of_temp_exact (temp r) Hhigh Hfit).
      unfold LED_FULL, HIGH_TEMP, LOW_TEMP in *.
      pose proof (Z.div_mod (255 * (temp r - 52)) 10 ltac:(lia)) as Hdm.
      pose proof (Z.mod_pos_bound (255 * (temp r - 52)) 10 ltac:(lia)) as Hm.
      lia.
  - intros Hs.
    assert (Hfull : br_of_temp (temp r) <= LED_FULL) by lia.
    clear Hin. revert s Hs.
    set (br := br_of_temp (temp r)) in *.
    destruct (Z.eqb_spec br 0) as [Hzero|Hnz]; cbn [orb]; intros s Hs.
    + revert s Hs. induction n as [|n IH]; intros s Hs; [exact Hs|].
      cbn [Thermal.checks]. apply IH.
      destruct (check_temp_ok r s Hret) as (Hb & _). rewrite Hb, Hs.
      fold br. rewrite Hzero. reflexivity.
    + assert (Hrest : 0 < br <= LED_FULL) by lia.
      destruct (ramp_at_rest br Hrest) as (Hdown & Hup).
      assert (Hboth : forall m s1,
                 (brightness s1 = br ->
                  brightness (checks m r s1)
                  = if Nat.even m then br else br - 1)
                 /\ (brightness s1 = br - 1 ->
                     brightness (checks m r s1)
                     = if Nat.even m then br - 1 else br)).
      { induction m as [|m IHm]; intros s1.
        - split; intros H1; exact H1.
        - destruct (check_temp_ok r s1 Hret) as (Hb & _). fold br in Hb.
          destruct (IHm (check_temp r s1)) as (IHa & IHb).
          cbn [Thermal.checks]. rewrite Nat.even_succ, <- Nat.negb_even.
          split; intros H1; rewrite H1 in Hb.
          + rewrite Hdown in Hb. rewrite (IHb Hb).
            destruct (Nat.even m); reflexivity.
          + rewrite Hup in Hb. rewrite (IHa Hb).
            destruct (Nat.even m); reflexivity. }
      apply Hboth. exact Hs.
Qed.

(** X20.  The value for a temperature, where the product does not wrap:
    it is 255 (t - 52) / 10 above [LOW_TEMP]; it is 0 exactly up to
    [LOW_TEMP], reaches [LED_FULL] exactly from [HIGH_TEMP] on, and never
    falls as the temperature rises. *)
Theorem br_of_temp_endpoints (t : Z) :
  LED_FULL * (t - LOW_TEMP) <= ULONG_MAX ->
  (LOW_TEMP < t -> br_of_temp t = LED_FULL * (t - LOW_TEMP) / 10)
  /\ (br_of_temp t = 0 <-> t <= LOW_TEMP)
  /\ (LED_FULL <= br_of_temp t <-> HIGH_TEMP <= t)
  /\ (forall t', t' <= t -> br_of_temp t' <= br_of_temp t).
Proof.
  intros Hfit.
  assert (Hlow : forall x, x <= LOW_TEMP -> br_of_temp x = 0).
  { intros x Hx. unfold Thermal.br_of_temp.
    destruct (Z.ltb_spec LOW_TEMP x); [lia|reflexivity]. }
  split; [intros Ht; now apply br_of_temp_exact|].
  destruct (Z.le_gt_cases t LOW_TEMP) as [Hle|Hgt].
  - rewrite (Hlow t Hle). unfold LED_FULL, HIGH_TEMP, LOW_TEMP in *.
    split; [split; [intros _; exact Hle|reflexivity]|].
    split; [split; lia|].
    intros t' Ht'. rewrite Hlow by lia. lia.
  - rewrite (br_of_temp_exact t Hgt Hfit).
    unfold LED_FULL, HIGH_TEMP, LOW_TEMP in *.
    pose proof (Z.div_mod (255 * (t - 52)) 10 ltac:(lia)) as Hdm.
    pose proof (Z.mod_pos_bound (255 * (t - 52)) 10 ltac:(lia)) as Hmb.
    split; [split; lia|]. split; [split; lia|].
    intros t' Ht'.
    destruct (Z.le_gt_cases t' 52) as [Hle'|Hgt'].
    + rewrite Hlow by (unfold LOW_TEMP; lia). lia.
    + rewrite br_of_temp_exact
        by (unfold LOW_TEMP, LED_FULL; lia).
      unfold LED_FULL, LOW_TEMP.
      apply Z.div_le_mono; lia.
Qed.

(** X21.  [check_temp] keeps itself going and paces itself by the LED:
    run off the queue, it ends with its work item queued again, whether
    the sensor could be read or not, after [DELAY_OFF] = 5 [HZ] when it
    leaves the LED dark and after [DELAY_ON] = 2 [HZ] otherwise; after a
    successful reading the last call to the LED core shows the brightness
    it has reached. *)
Theorem check_temp_rearms (r : tsens) (s : state) :
  check_temp_work s = None ->
  let s' := check_temp r s in
  check_temp_work s' = Some (delay s')
  /\ delay s' = (if brightness s' =? 0 then 5 * HZ else 2 * HZ)
  /\ (ret r = 0 ->
      led_log s' = TriggerEvent (brightness s') :: led_log s).
Proof.
  intros Hnone. cbv zeta. unfold Thermal.check_temp.
  destruct (Z.eqb_spec (ret r) 0) as [Hret|Hret]; cbn [negb]; cbv zeta.
  - match goal with
    | |- context [Thermal.reschedule HZ ?x] =>
        destruct (reschedule_keeps x) as (Hb & _ & Hl & Hd);
        pose proof (reschedule_work x Hnone) as Hw
    end.
    rewrite Hw, Hd, Hb, Hl. repeat split.
  - destruct (reschedule_keeps s) as (Hb & _ & Hl & Hd).
    rewrite (reschedule_work s Hnone), Hd, Hb.
    split; [reflexivity|]. split; [reflexivity|]. intros H0. contradiction.
Qed.

(** X22.  Across a suspend and the resume that follows, an active
    trigger keeps its brightness: the suspend cancels the work and, when
    the LED was lit, turns it off; the resume queues the work again, after
    the delay that goes with the brightness kept, and does not light the
    LED itself.  A trigger that is not active is left alone by both. *)
Theorem suspend_resume_keeps_brightness (s : state) :
  let ss := thermal_trig_early_suspend s in
  let sr := thermal_trig_late_resume ss in
  (active s = false -> sr = s)
  /\ (active s = true ->
      brightness sr = brightness s
      /\ check_temp_work ss = None
      /\ check_temp_work sr = Some (delay sr)
      /\ delay sr = (if brightness s =? 0 then 5 * HZ else 2 * HZ)
      /\ led_log sr = (if brightness s =? 0 then led_log s
                       else TriggerEvent LED_OFF :: led_log s)).
Proof.
  cbv zeta. destruct s as [d b a w l].
  cbn [active brightness].
  split; intros ->.
  - reflexivity.
  - cbv [Thermal.thermal_trig_late_resume thermal_trig_early_suspend
         cancel_delayed_work set_work led_trigger_event log_led
         schedule_delayed_work set_delay active brightness check_temp_work
         delay led_log negb LED_OFF Thermal.DELAY_OFF Thermal.DELAY_ON].
    destruct (b =? 0) eqn:Hb0;
      cbv [active brightness check_temp_work delay led_log negb];
      rewrite ?Hb0; repeat split.
Qed.

End Facts.

(** The theorems at work, with [HZ] = 100 on a machine where [long] has
    32 bits. *)

Lemma long_32_fits : 0 <= ULONG_MAX_32 < 10 * 2 ^ 31.
Proof. by_evaluation. Qed.

Lemma check_temp_no_overflow_witness :
  0 <= br_of_temp ULONG_MAX_32 57 <= INT_MAX
  /\ - INT_MAX <= smooth (br_of_temp ULONG_MAX_32 57) 100 <= INT_MAX.
Proof.
  assert (Hb : LED_OFF <= 100 <= LED_FULL) by by_evaluation.
  pose proof (check_temp_no_overflow ULONG_MAX_32 long_32_fits 57 100 Hb)
    as (H1 & _ & H2).
  split; [exact H1|exact H2].
Defined.

Lemma sensor_failure_keeps_brightness_witness :
  let s := mk_state 200 80 true None [TriggerEvent 80] in
  let s' := check_temp 100 ULONG_MAX_32 failed s in
  brightness s' = 80 /\ led_log s' = [TriggerEvent 80]
  /\ check_temp_work s' = Some (delay s').
Proof.
  cbv zeta.
  assert (Hret : ret failed <> 0) by by_evaluation.
  pose proof (sensor_failure_keeps_brightness 100 ULONG_MAX_32 failed
                (mk_state 200 80 true None [TriggerEvent 80]) Hret)
    as (H1 & H2 & _ & H3).
  split; [exact H1|]. split; [exact H2|exact (H3 eq_refl)].
Defined.

Lemma check_temp_approaches_witness :
  let s := mk_state 200 60 true None [] in
  let b' := brightness (check_temp 100 ULONG_MAX_32 warm s) in
  Z.abs (b' - 60) <= 10
  /\ Z.abs (Z.min (br_of_temp ULONG_MAX_32 57) LED_FULL - b')
     <= Z.max (Z.abs (Z.min (br_of_temp ULONG_MAX_32 57) LED_FULL - 60) - 1) 1.
Proof.
  cbv zeta.
  assert (Hb : LED_OFF <= 60 <= LED_FULL) by by_evaluation.
  pose proof (check_temp_approaches 100 ULONG_MAX_32 long_32_fits warm
                (mk_state 200 60 true None []) eq_refl Hb) as (H1 & H2 & _).
  split; [apply H2; by_evaluation|exact H1].
Defined.

Lemma brightness_settles_witness :
  let s := mk_state 200 0 true None [] in
  Z.abs (Z.min (br_of_temp ULONG_MAX_32 57) LED_FULL
         - brightness (checks 100 ULONG_MAX_32 300 warm s)) <= 1.
Proof.
  cbv zeta.
  assert (Hb : LED_OFF <= 0 <= LED_FULL) by by_evaluation.
  pose proof (brightness_settles 100 ULONG_MAX_32 long_32_fits 300 warm
                (mk_state 200 0 true None []) eq_refl Hb) as (_ & H).
  apply H. lia.
Defined.

Lemma brightness_alternates_witness :
  let s := mk_state 200 127 true None [] in
  let lit := mk_state 200 255 true None [] in
  let hot := mk_tsens 0 63 in
  brightness (checks 100 ULONG_MAX_32 1 warm s) = 126
  /\ brightness (checks 100 ULONG_MAX_32 2 warm s) = 127
  /\ brightness (check_temp 100 ULONG_MAX_32 warm s) <> brightness s
  /\ brightness (check_temp 100 ULONG_MAX_32 hot lit) = brightness lit.
Proof.
  cbv zeta.
  assert (Hs : LED_OFF <= 127 <= LED_FULL) by by_evaluation.
  assert (Hlit : LED_OFF <= 255 <= LED_FULL) by by_evaluation.
  split; [|split; [|split]].
  - exact (proj2 (proj2 (brightness_alternates 100 ULONG_MAX_32 long_32_fits
                           1 warm (mk_state 200 127 true None [])
                           eq_refl Hs)) eq_refl).
  - exact (proj2 (proj2 (brightness_alternates 100 ULONG_MAX_32 long_32_fits
                           2 warm (mk_state 200 127 true None [])
                           eq_refl Hs)) eq_refl).
  - intros Hrest.
    destruct (proj1 (proj1 (brightness_alternates 100 ULONG_MAX_32
                              long_32_fits 0 warm
                              (mk_state 200 127 true None []) eq_refl Hs))
                Hrest) as [(Hb & _)|(Hb & _)]; discriminate Hb.
  - apply (proj1 (brightness_alternates 100 ULONG_MAX_32 long_32_fits 0
                    (mk_tsens 0 63) (mk_state 200 255 true None [])
                    eq_refl Hlit)).
    right. split; reflexivity.
Defined.

Lemma br_of_temp_endpoints_witness :
  br_of_temp ULONG_MAX_32 62 = LED_FULL * (62 - LOW_TEMP) / 10
  /\ LED_FULL <= br_of_temp ULONG_MAX_32 62
  /\ br_of_temp ULONG_MAX_32 57 <= br_of_temp ULONG_MAX_32 62.
Proof.
  assert (Hfit : LED_FULL * (62 - LOW_TEMP) <= ULONG_MAX_32) by by_evaluation.
  pose proof (br_of_temp_endpoints ULONG_MAX_32 long_32_fits 62 Hfit)
    as (H1 & _ & H2 & H3).
  split; [apply H1; by_evaluation|].
  split; [apply H2; by_evaluation|apply H3; by_evaluation].
Defined.

Lemma check_temp_rearms_witness :
  let s' := check_temp 100 ULONG_MAX_32 warm (thermal_trig_init 100 fresh) in
  check_temp_work s' = Some (delay s')
  /\ delay s' = (if brightness s' =? 0 then 5 * 100 else 2 * 100)
  /\ led_log s' = [TriggerEvent (brightness s')].
Proof.
  cbv zeta.
  pose proof (check_temp_rearms 100 ULONG_MAX_32 warm
                (thermal_trig_init 100 fresh) eq_refl) as (H1 & H2 & H3).
  split; [exact H1|]. split; [exact H2|exact (H3 eq_refl)].
Defined.

Lemma suspend_resume_keeps_brightness_witness :
  let s := mk_state 200 80 true (Some 200) [TriggerEvent 80] in
  let sr := thermal_trig_late_resume 100 (thermal_trig_early_suspend s) in
  brightness sr = 80
  /\ led_log sr = [TriggerEvent LED_OFF; TriggerEvent 80].
Proof.
  cbv zeta.
  pose proof (suspend_resume_keeps_brightness 100
                (mk_state 200 80 true (Some 200) [TriggerEvent 80]))
    as (_ & H).
  destruct (H eq_refl) as (H1 & _ & _ & _ & H2).
  split; [exact H1|exact H2].
Defined.

End ThermalFacts.
